(** * Dashboard-Assignment: the graph store, pattern matcher, search and
    filter logic of the Neo4j dashboard, embedded in Rocq.

    Sources embedded here:
    - [graph_plotting.py]      (class GraphPlotter)            -> [Module GraphPlotter],
                                 [Module MainPlot], [Module PatternPlot], [Module NodeName]
    - [Project files/app.py]   (pattern search, filter parser) -> [Module App],
                                 [Module AppPatternPlot], [Module PropertyControls],
                                 [Module AppSearch]
    - [search_function.py]     (class PatternPropertyExplorer) -> [Module PatternPropertyExplorer],
                                 [Module GraphSearchInterface]
    - [fetch_graph_data.py]    (class GraphDataFetcher)        -> [Module GraphDataFetcher]
    - [app.py]                 (statistics panel)              -> [Module StatisticsPanel]

    Python values are modelled as follows.  Strings are ASCII strings.
    Dictionaries that the code only uses as maps (attribute and property
    dictionaries) are [gmap string _]; dictionaries that the code iterates
    positionally (the node and relationship collections, networkx's node
    and adjacency tables) are association lists in insertion order.
    Exceptions are an explicit [result] type.  Floating point is kept
    abstract behind the [PyFloat] interface. *)

From Stdlib Require Import ZArith Ascii String DecimalString.
From stdpp Require Import base option list gmap strings.

Set Warnings "-register-all".

Open Scope string_scope.
Open Scope list_scope.
Open Scope stdpp_scope.

(* ================================================================== *)
(** ** Python exceptions *)

Inductive exn : Type :=
  | TypeError | ValueError | AttributeError | KeyError | IndexError
  | OverflowError.

Inductive result (A : Type) : Type :=
  | Ok (a : A)
  | Raise (e : exn).
Arguments Ok {A} a.
Arguments Raise {A} e.

#[global] Instance result_ret : MRet result := λ A a, Ok a.
#[global] Instance result_bind : MBind result := λ A B k r,
  match r with Ok a => k a | Raise e => Raise e end.
#[global] Instance result_fmap : FMap result := λ A B f r,
  match r with Ok a => Ok (f a) | Raise e => Raise e end.

(** [for x in xs: s = body(s, x)] with exceptions aborting the loop. *)
Fixpoint for_each {A S} (body : S → A → result S) (xs : list A) (s : S)
  : result S :=
  match xs with
  | [] => Ok s
  | x :: xs' => s' ← body s x; for_each body xs' s'
  end.

(** [try: ... except: return False] *)
Definition except_false (r : result bool) : bool :=
  match r with Ok b => b | Raise _ => false end.

Definition of_option {A} (e : exn) (o : option A) : result A :=
  match o with Some a => Ok a | None => Raise e end.

(* ================================================================== *)
(** ** Python [str] methods, on ASCII strings *)

Module PyStr.

Definition is_upper (c : ascii) : bool :=
  let n := nat_of_ascii c in ((65 <=? n) && (n <=? 90))%nat.

Definition is_digit (c : ascii) : bool :=
  let n := nat_of_ascii c in ((48 <=? n) && (n <=? 57))%nat.

(** The ASCII characters for which [str.isspace] holds. *)
Definition is_space (c : ascii) : bool :=
  let n := nat_of_ascii c in
  (((9 <=? n) && (n <=? 13)) || ((28 <=? n) && (n <=? 32)))%nat.

Definition lower_char (c : ascii) : ascii :=
  if is_upper c then ascii_of_nat (nat_of_ascii c + 32) else c.

(** [s.lower()] *)
Fixpoint lower (s : string) : string :=
  match s with
  | EmptyString => EmptyString
  | String c s' => String (lower_char c) (lower s')
  end.

Definition is_empty (s : string) : bool :=
  match s with EmptyString => true | _ => false end.

Fixpoint lstrip_by (p : ascii → bool) (s : string) : string :=
  match s with
  | EmptyString => EmptyString
  | String c s' => if p c then lstrip_by p s' else s
  end.

Fixpoint rstrip_by (p : ascii → bool) (s : string) : string :=
  match s with
  | EmptyString => EmptyString
  | String c s' =>
      let r := rstrip_by p s' in
      if p c && is_empty r then EmptyString else String c r
  end.

Definition strip_by (p : ascii → bool) (s : string) : string :=
  rstrip_by p (lstrip_by p s).

(** [s.strip()] *)
Definition strip (s : string) : string := strip_by is_space s.

Fixpoint mem_char (c : ascii) (chars : string) : bool :=
  match chars with
  | EmptyString => false
  | String d chars' => Ascii.eqb c d || mem_char c chars'
  end.

(** [s.strip(chars)] *)
Definition strip_chars (chars : string) (s : string) : string :=
  strip_by (λ c, mem_char c chars) s.

(** [s.startswith(p)] *)
Definition startswith (p s : string) : bool := String.prefix p s.

(** [sub in s], which is also [s.find(sub) >= 0] *)
Fixpoint contains (sub s : string) : bool :=
  String.prefix sub s ||
  match s with
  | EmptyString => false
  | String _ s' => contains sub s'
  end.

Definition find_ge_0 (sub s : string) : bool := contains sub s.

(** [s.isdigit()] *)
Fixpoint all_digits (s : string) : bool :=
  match s with
  | EmptyString => true
  | String c s' => is_digit c && all_digits s'
  end.

Definition isdigit (s : string) : bool := negb (is_empty s) && all_digits s.

Fixpoint drop (n : nat) (s : string) : string :=
  match n, s with
  | O, _ => s
  | S n', String _ s' => drop n' s'
  | S _, EmptyString => EmptyString
  end.

(** [s.replace(old, new)] for a non-empty [old]: occurrences are replaced
    left to right without overlap.  [skip] counts the characters of an
    occurrence still to be consumed. *)
Fixpoint replace_from (old new : string) (skip : nat) (s : string) : string :=
  match s with
  | EmptyString => EmptyString
  | String c s' =>
      match skip with
      | S k => replace_from old new k s'
      | O =>
          if String.prefix old s
          then new +:+ replace_from old new (String.length old - 1) s'
          else String c (replace_from old new 0 s')
      end
  end.

Definition replace (old new s : string) : string := replace_from old new 0 s.

(** [s.partition(sep)]: the text before and after the first occurrence
    of the non-empty [sep], or [None] when there is none. *)
Fixpoint partition (sep s : string) : option (string * string) :=
  if String.prefix sep s then Some (EmptyString, drop (String.length sep) s)
  else match s with
       | EmptyString => None
       | String c s' =>
           match partition sep s' with
           | Some (b, a) => Some (String c b, a)
           | None => None
           end
       end.

(** [s.split(sep)[1]] *)
Definition split_1 (sep s : string) : result string :=
  match partition sep s with
  | None => Raise IndexError
  | Some (_, rest) =>
      match partition sep rest with
      | None => Ok rest
      | Some (field, _) => Ok field
      end
  end.

(** [str(n)] for an [int] *)
Definition of_Z (n : Z) : string := NilZero.string_of_int (Z.to_int n).

End PyStr.

(* ================================================================== *)
(** ** Python values *)

(** What the embedding needs from Python's [float]: the type, the
    conversions [float(n)] and [float(s)] ([None] stands for
    [OverflowError], respectively [ValueError]), the comparisons, and
    [str(x)].  [str_repr] is [repr(s)] for a string [s], which only the
    printing of lists uses.  The two laws are facts about CPython's number
    syntax: [float(s)] accepts only text that, after leading white space,
    starts with a digit, a sign, a dot or the first letter of [inf] or
    [nan]; and [str(x)] starts with a digit, a minus sign or the first
    letter of [inf] or [nan]. *)
Class PyFloat := {
  pyfloat : Type;
  float_of_int : Z → option pyfloat;
  float_of_str : string → option pyfloat;
  float_eqb : pyfloat → pyfloat → bool;
  float_ltb : pyfloat → pyfloat → bool;
  float_eqb_int : pyfloat → Z → bool;
  float_str : pyfloat → string;
  str_repr : string → string;
  float_of_str_start : ∀ s x, float_of_str s = Some x →
    ∃ c r, PyStr.lstrip_by PyStr.is_space s = String c r ∧
           (PyStr.is_digit c || PyStr.mem_char c "+-.iInN") = true;
  float_str_start : ∀ x, ∃ c r, float_str x = String c r ∧
           (PyStr.is_digit c || PyStr.mem_char c "-in") = true;
}.

Section Values.
Context `{PyFloat}.

(** A property value of the payload: [None], [bool], [int], [float],
    [str] or a list of such values. *)
Inductive PropertyValue : Type :=
  | PNone
  | PBool (b : bool)
  | PInt (n : Z)
  | PFloat (x : pyfloat)
  | PStr (s : string)
  | PList (l : list PropertyValue).

Definition join_comma (l : list string) : string :=
  match l with
  | [] => EmptyString
  | s :: l' => fold_left (λ acc t, acc +:+ ", " +:+ t) l' s
  end.

(** [repr(v)] *)
Fixpoint py_repr (v : PropertyValue) : string :=
  match v with
  | PNone => "None"
  | PBool b => if b then "True" else "False"
  | PInt n => PyStr.of_Z n
  | PFloat x => float_str x
  | PStr s => str_repr s
  | PList l => "[" +:+ join_comma (map py_repr l) +:+ "]"
  end.

(** [str(v)] *)
Definition py_str (v : PropertyValue) : string :=
  match v with
  | PStr s => s
  | _ => py_repr v
  end.

(** [float(v)] *)
Definition py_float (v : PropertyValue) : result pyfloat :=
  match v with
  | PNone => Raise TypeError
  | PBool b => of_option OverflowError (float_of_int (if b then 1 else 0))
  | PInt n => of_option OverflowError (float_of_int n)
  | PFloat x => Ok x
  | PStr s => of_option ValueError (float_of_str s)
  | PList _ => Raise TypeError
  end.

(** [float(s)] for a string *)
Definition float_of_text (s : string) : result pyfloat :=
  of_option ValueError (float_of_str s).

(** [isinstance(v, str)] *)
Definition is_str (v : PropertyValue) : bool :=
  match v with PStr _ => true | _ => false end.

(** [isinstance(v, (str, int, float))]; [bool] is a subclass of [int]. *)
Definition isinstance_str_int_float (v : PropertyValue) : bool :=
  match v with
  | PStr _ | PInt _ | PFloat _ | PBool _ => true
  | PNone | PList _ => false
  end.


(** [v == s] for a string [s] *)
Definition eq_str (v : PropertyValue) (s : string) : bool :=
  match v with PStr t => String.eqb t s | _ => false end.

(** [v.startswith(p)]: only [str] has the method. *)
Definition py_startswith (v : PropertyValue) (p : string) : result bool :=
  match v with
  | PStr s => Ok (PyStr.startswith p s)
  | _ => Raise AttributeError
  end.

(** Whether [hash(v)] is defined: lists are unhashable. *)
Definition hashable (v : PropertyValue) : bool :=
  match v with PList _ => false | _ => true end.

Definition int_of_bool (b : bool) : Z := if b then 1 else 0.

(** [a == b] on hashable values, as a dictionary compares its keys. *)
Definition key_eqb (a b : PropertyValue) : bool :=
  match a, b with
  | PNone, PNone => true
  | PStr s, PStr t => String.eqb s t
  | PBool x, PBool y => Z.eqb (int_of_bool x) (int_of_bool y)
  | PBool x, PInt n | PInt n, PBool x => Z.eqb (int_of_bool x) n
  | PInt m, PInt n => Z.eqb m n
  | PFloat x, PFloat y => float_eqb x y
  | PFloat x, PInt n | PInt n, PFloat x => float_eqb_int x n
  | PFloat x, PBool b | PBool b, PFloat x => float_eqb_int x (int_of_bool b)
  | _, _ => false
  end.

End Values.

(* ================================================================== *)
(** ** Insertion-ordered dictionaries with string keys *)

Module OrderedDict.
Section ordered_dict.
Context {V : Type}.

(** [d.get(k)] *)
Fixpoint get (k : string) (d : list (string * V)) : option V :=
  match d with
  | [] => None
  | (k', v) :: d' => if decide (k' = k) then Some v else get k d'
  end.

(** [d[k] = v]: an existing key keeps its position, a new key goes last. *)
Fixpoint set (k : string) (v : V) (d : list (string * V)) : list (string * V) :=
  match d with
  | [] => [(k, v)]
  | (k', v') :: d' =>
      if decide (k' = k) then (k, v) :: d' else (k', v') :: set k v d'
  end.

Definition keys (d : list (string * V)) : list string := d.*1.

End ordered_dict.
End OrderedDict.

(* ================================================================== *)
(** ** networkx: [DiGraph]

    A model of the library class as the program uses it.  networkx keeps
    three dictionaries with the same key set ([_node], [_succ], [_pred]);
    here one table maps a node to its attribute dictionary and to its
    successor dictionary, whose values are the edge attribute
    dictionaries.  There is one edge per ordered pair of nodes. *)

Module nx.
Section digraph.
Context `{PyFloat}.

Record NodeEntry := {
  attrs : gmap string PropertyValue;
  succ : list (string * gmap string PropertyValue);
}.

Record DiGraph := { table : list (string * NodeEntry) }.

(** [nx.DiGraph()] *)
Definition empty : DiGraph := {| table := [] |}.

(** a fresh node, as both [add_node] and [add_edge] create it *)
Definition fresh (attr : gmap string PropertyValue) : NodeEntry :=
  {| attrs := attr; succ := [] |}.

(** [G.add_node(n, **attr)]: a new node gets [attr]; the attributes of
    an existing node are updated with [attr]. *)
Definition add_node (n : string) (attr : gmap string PropertyValue)
    (G : DiGraph) : DiGraph :=
  match OrderedDict.get n (table G) with
  | None => {| table := OrderedDict.set n (fresh attr) (table G) |}
  | Some e =>
      {| table := OrderedDict.set n {| attrs := attr ∪ attrs e; succ := succ e |}
                    (table G) |}
  end.

(** the implicit node creation of [add_edge] *)
Definition ensure_node (n : string) (G : DiGraph) : DiGraph :=
  match OrderedDict.get n (table G) with
  | None => {| table := OrderedDict.set n (fresh ∅) (table G) |}
  | Some _ => G
  end.

(** [datadict = adj[u].get(v, {}); datadict.update(attr); adj[u][v] = datadict] *)
Definition put_edge (v : string) (attr : gmap string PropertyValue)
    (e : NodeEntry) : NodeEntry :=
  let datadict := default ∅ (OrderedDict.get v (succ e)) in
  {| attrs := attrs e; succ := OrderedDict.set v (attr ∪ datadict) (succ e) |}.

(** [G.add_edge(u, v, **attr)]: missing endpoints are created without
    attributes, then the edge data of [(u, v)] is created or updated. *)
Definition add_edge (u v : string) (attr : gmap string PropertyValue)
    (G : DiGraph) : DiGraph :=
  let G2 := ensure_node v (ensure_node u G) in
  match OrderedDict.get u (table G2) with
  | None => G2
  | Some e => {| table := OrderedDict.set u (put_edge v attr e) (table G2) |}
  end.

(** Python's check of a call [f(x, **kwargs)]: a keyword that
    names a parameter already bound raises [TypeError]. *)
Definition kwargs_clash (params : list string)
    (kwargs : gmap string PropertyValue) : bool :=
  existsb (λ p, bool_decide (is_Some (kwargs !! p))) params.

(** [G.add_node(n, **kwargs)] for [def add_node(self, node_for_adding, **attr)] *)
Definition call_add_node (n : string) (kwargs : gmap string PropertyValue)
    (G : DiGraph) : result DiGraph :=
  if kwargs_clash ["self"; "node_for_adding"] kwargs then Raise TypeError
  else Ok (add_node n kwargs G).

(** [G.add_edge(u, v, type=t, **kwargs)] for
    [def add_edge(self, u_of_edge, v_of_edge, **attr)] *)
Definition call_add_edge_type (u v : string) (t : PropertyValue)
    (kwargs : gmap string PropertyValue) (G : DiGraph) : result DiGraph :=
  if kwargs_clash ["self"; "u_of_edge"; "v_of_edge"; "type"] kwargs
  then Raise TypeError
  else Ok (add_edge u v (<["type" := t]> kwargs) G).

(** [G.nodes()] *)
Definition nodes (G : DiGraph) : list string := OrderedDict.keys (table G).

(** [G.nodes[n]] *)
Definition node_data (G : DiGraph) (n : string)
  : result (gmap string PropertyValue) :=
  of_option KeyError (attrs <$> OrderedDict.get n (table G)).

(** [G.edges(data=True)] *)
Definition edges_data (G : DiGraph)
  : list (string * string * gmap string PropertyValue) :=
  flat_map (λ '(u, e), map (λ '(v, dd), (u, v, dd)) (succ e)) (table G).

(** [G.edges()] *)
Definition edges (G : DiGraph) : list (string * string) :=
  map (λ '(u, v, _), (u, v)) (edges_data G).

(** the data of edge [(u, v)], if it is an edge *)
Definition edge_data (G : DiGraph) (u v : string)
  : option (gmap string PropertyValue) :=
  e ← OrderedDict.get u (table G); OrderedDict.get v (succ e).

Definition number_of_nodes (G : DiGraph) : nat := length (table G).

Definition number_of_edges (G : DiGraph) : nat :=
  sum_list (map (λ '(_, e), length (succ e)) (table G)).

End digraph.
End nx.

(* ================================================================== *)
(** ** The fetched payload: [graph_data]

    [{"nodes": {id: {"labels", "properties"}},
      "relationships": {id: {"type", "properties", "start_node", "end_node"}}}]
    as [fetch_graph_data.py] builds it.  A relationship may lack the
    ["properties"] entry: the readers use [.get("properties", {})]. *)

Section Payload.
Context `{PyFloat}.

Record NodeInfo := {
  labels : list string;
  properties : gmap string PropertyValue;
}.

Record RelInfo := {
  rel_type : string;
  rel_properties : option (gmap string PropertyValue);
  start_node : string;
  end_node : string;
}.

Record GraphData := {
  nodes : list (string * NodeInfo);
  relationships : list (string * RelInfo);
}.

(** [node_info["labels"][0] if node_info["labels"] else "Unknown"] *)
Definition primary_label (info : NodeInfo) : string :=
  match labels info with
  | l :: _ => l
  | [] => "Unknown"
  end.

(** [rel_info.get("properties", {})] *)
Definition rel_props (r : RelInfo) : gmap string PropertyValue :=
  default ∅ (rel_properties r).

(** The node attributes every graph builder of the program computes:
    [node_props = {"label": t, "type": t}; node_props.update(properties)]. *)
Definition node_props (info : NodeInfo) : gmap string PropertyValue :=
  properties info ∪
  <["label" := PStr (primary_label info)]>
    (<["type" := PStr (primary_label info)]> ∅).

(** The column data of the Bokeh node renderer that the program rewrites
    after the plot exists: [data_source.data['color']] and ['radius']. *)
Record Renderer := {
  color : list string;
  radius : list Z;
}.

End Payload.

(* ================================================================== *)
(** ** graph_plotting.py: class [GraphPlotter] *)

Module GraphPlotter.
Section graph_plotter.
Context `{PyFloat}.

Record t := {
  graph_data : GraphData;
  G : nx.DiGraph;
  graph_renderer : option Renderer;
}.

(** [_create_networkx_graph], lines 30-50 *)
Definition _create_networkx_graph (gd : GraphData) : result nx.DiGraph :=
  G1 ← for_each
         (λ g '(node_id, node_info),
            nx.call_add_node node_id (node_props node_info) g)
         (nodes gd) nx.empty;
  for_each
    (λ g '(rel_id, rel_info),
       nx.call_add_edge_type (start_node rel_info) (end_node rel_info)
         (PStr (rel_type rel_info)) (rel_props rel_info) g)
    (relationships gd) G1.

(** [__init__] *)
Definition init (gd : GraphData) : result t :=
  g ← _create_networkx_graph gd;
  Ok {| graph_data := gd; G := g; graph_renderer := None |}.

(** [attrs.get("type", "Unknown")] *)
Definition get_type (a : gmap string PropertyValue) : PropertyValue :=
  default (PStr "Unknown") (a !! "type").

(** The branch of [_get_node_styling] for one node type, lines 240-259.
    [node_type.startswith] exists only on strings. *)
Definition node_style (node_type : PropertyValue) : result (string * Z) :=
  if eq_str node_type "Movie" then Ok ("#3182bd", 10%Z)
  else if eq_str node_type "Person" then Ok ("#31a354", 8%Z)
  else
    actor ← (if eq_str node_type "Actor_1" then Ok true
             else py_startswith node_type "Actor");
    if actor : bool then Ok ("#31a354", 8%Z)
    else if eq_str node_type "Director" then Ok ("#e6550d", 12%Z)
    else if eq_str node_type "Genre" then Ok ("#e6550d", 6%Z)
    else Ok ("#756bb1", 5%Z).

(** the loop of [_get_node_styling]: one colour and one size per node, in
    node order *)
Fixpoint styling_loop (tbl : list (string * nx.NodeEntry))
  : result (list string * list Z) :=
  match tbl with
  | [] => Ok ([], [])
  | (_, e) :: rest =>
      '(c, s) ← node_style (get_type (nx.attrs e));
      '(cs, ss) ← styling_loop rest;
      Ok (c :: cs, s :: ss)
  end.

(** [_get_node_styling], lines 234-261 *)
Definition _get_node_styling (g : nx.DiGraph) : result (list string * list Z) :=
  styling_loop (nx.table g).

(** [any(p(value) for value in d.values())] *)
Definition any_value (p : PropertyValue → bool)
    (d : gmap string PropertyValue) : bool :=
  existsb p (map_to_list d).*2.

(** the generator of [highlight_nodes], lines 330-334 *)
Definition found (search_term : string) (node_data : gmap string PropertyValue)
  : bool :=
  any_value
    (λ value, isinstance_str_int_float value &&
              PyStr.find_ge_0 search_term (PyStr.lower (py_str value)))
    node_data.

(** the loop of [highlight_nodes], lines 327-340 *)
Fixpoint highlight_loop (search_term : string) (original_colors : list string)
    (i : nat) (tbl : list (string * nx.NodeEntry))
  : result (list string * list string) :=
  match tbl with
  | [] => Ok ([], [])
  | (node, e) :: rest =>
      let hit := found search_term (nx.attrs e) in
      c ← (if hit then Ok "#FFD700"
           else of_option IndexError (original_colors !! i));
      '(node_colors, matching_nodes) ←
        highlight_loop search_term original_colors (S i) rest;
      Ok (c :: node_colors,
          if hit then node :: matching_nodes else matching_nodes)
  end.

Definition set_color (p : t) (r : Renderer) (node_colors : list string) : t :=
  {| graph_data := graph_data p; G := G p;
     graph_renderer := Some {| color := node_colors; radius := radius r |} |}.

(** [highlight_nodes], lines 309-345: the plotter after the call and the
    returned list of matching node ids *)
Definition highlight_nodes (p : t) (search_term : string)
  : result (t * list string) :=
  match graph_renderer p with
  | None => Ok (p, [])
  | Some r =>
      let search_term := PyStr.lower search_term in
      '(original_colors, _) ← _get_node_styling (G p);
      '(node_colors, matching_nodes) ←
        highlight_loop search_term original_colors 0 (nx.table (G p));
      Ok (set_color p r node_colors, matching_nodes)
  end.

(** [reset_node_colors], lines 347-353 *)
Definition reset_node_colors (p : t) : result t :=
  match graph_renderer p with
  | None => Ok p
  | Some r =>
      '(node_colors, _) ← _get_node_styling (G p);
      Ok (set_color p r node_colors)
  end.

(** [d[k] = d.get(k, 0) + 1] on a dictionary of counters *)
Fixpoint count_up (k : PropertyValue) (d : list (PropertyValue * nat))
  : list (PropertyValue * nat) :=
  match d with
  | [] => [(k, 1)]
  | (k', n) :: d' =>
      if key_eqb k' k then (k', S n) :: d' else (k', n) :: count_up k d'
  end.

Definition count_type (d : list (PropertyValue * nat))
    (a : gmap string PropertyValue) : result (list (PropertyValue * nat)) :=
  let ty := get_type a in
  if hashable ty then Ok (count_up ty d) else Raise TypeError.

(** The counting part of the dictionary [get_graph_statistics] returns.
    Its two other entries, ["is_connected"] and ["density"], are computed
    after these four and are not part of the model. *)
Record Statistics := {
  total_nodes : nat;
  total_edges : nat;
  node_types : list (PropertyValue * nat);
  edge_types : list (PropertyValue * nat);
}.

(** [get_graph_statistics], lines 355-377.  [None] is the empty
    dictionary returned for a graph without nodes ([if not self.G]). *)
Definition get_graph_statistics (p : t) : result (option Statistics) :=
  if bool_decide (nx.number_of_nodes (G p) = 0) then Ok None
  else
    nt ← for_each (λ d '(_, e), count_type d (nx.attrs e)) (nx.table (G p)) [];
    et ← for_each (λ d '(_, _, dd), count_type d dd) (nx.edges_data (G p)) [];
    Ok (Some {| total_nodes := nx.number_of_nodes (G p);
                total_edges := nx.number_of_edges (G p);
                node_types := nt;
                edge_types := et |}).

End graph_plotter.
End GraphPlotter.

(* ================================================================== *)
(** ** The filter-condition mini language shared by app.py and
    search_function.py *)

Definition dquote : ascii := ascii_of_nat 34.

(** the two quote characters that [.strip] removes around a literal:
    the apostrophe and the double quote *)
Definition quote_chars : string := String "'" (String dquote EmptyString).

(* ================================================================== *)
(** ** Project files/app.py *)

Module App.
Section app.
Context `{PyFloat}.

(** The node scan of the pattern search, lines 401-407 (repeated at
    859-865): [if node_type == type_a: ... elif node_type == type_b: ...] *)
Fixpoint find_matching_nodes (type_a type_b : string)
    (ns : list (string * NodeInfo)) : list string * list string :=
  match ns with
  | [] => ([], [])
  | (node_id, node_info) :: rest =>
      let '(matching_nodes_a, matching_nodes_b) :=
        find_matching_nodes type_a type_b rest in
      let node_type := primary_label node_info in
      if decide (node_type = type_a)
      then (node_id :: matching_nodes_a, matching_nodes_b)
      else if decide (node_type = type_b)
      then (matching_nodes_a, node_id :: matching_nodes_b)
      else (matching_nodes_a, matching_nodes_b)
  end.

(** The relationship scan, lines 409-415 (repeated at 867-873) *)
Definition find_matching_relationships (rel_type_q : string)
    (matching_nodes_a matching_nodes_b : list string)
    (rs : list (string * RelInfo)) : list (string * string * RelInfo) :=
  omap (λ '(_, rel_info),
          if decide (rel_type rel_info = rel_type_q) then
            if bool_decide (start_node rel_info ∈ matching_nodes_a) &&
               bool_decide (end_node rel_info ∈ matching_nodes_b)
            then Some (start_node rel_info, end_node rel_info, rel_info)
            else None
          else None) rs.

(** [for node_id in set(matching_nodes_a + matching_nodes_b)]: the
    iteration order of a Python set is unspecified; the model takes the
    order of the finite set. *)
Definition pattern_node_ids (matching_nodes_a matching_nodes_b : list string)
  : list string :=
  elements (list_to_set (matching_nodes_a ++ matching_nodes_b) : gset string).

(** What [create_pattern_visualization] returns, line 433 *)
Record PatternResult := {
  pattern_G : nx.DiGraph;
  matching_nodes_a : list string;
  matching_nodes_b : list string;
  matching_relationships : list (string * string * RelInfo);
}.

(** [create_pattern_visualization], lines 391-433; the body of
    [search_pattern] at lines 851-889 is the same code. *)
Definition create_pattern_visualization (gd : GraphData)
    (type_a rel_type_q type_b : string) : result PatternResult :=
  let '(nodes_a, nodes_b) := find_matching_nodes type_a type_b (nodes gd) in
  let rels := find_matching_relationships rel_type_q nodes_a nodes_b
                (relationships gd) in
  G1 ← for_each
         (λ g node_id,
            node_info ← of_option KeyError (OrderedDict.get node_id (nodes gd));
            nx.call_add_node node_id (node_props node_info) g)
         (pattern_node_ids nodes_a nodes_b) nx.empty;
  G2 ← for_each
         (λ g '(start, stop, rel_info),
            nx.call_add_edge_type start stop (PStr (rel_type rel_info))
              (rel_props rel_info) g)
         rels G1;
  Ok {| pattern_G := G2; matching_nodes_a := nodes_a;
        matching_nodes_b := nodes_b; matching_relationships := rels |}.

(** [a > b] on floats *)
Definition float_gtb (a b : pyfloat) : bool := float_ltb b a.
Definition float_geb (a b : pyfloat) : bool := float_ltb b a || float_eqb a b.
Definition float_leb (a b : pyfloat) : bool := float_ltb a b || float_eqb a b.

(** [parse_filter_condition], lines 694-727 *)
Definition parse_filter_condition (value_str : PropertyValue)
    (filter_str : string) : result bool :=
  let filter_str := PyStr.lower (PyStr.strip filter_str) in
  if PyStr.contains "contains" filter_str then
    field ← PyStr.split_1 "contains" filter_str;
    let search_term := PyStr.strip_chars quote_chars (PyStr.strip field) in
    Ok (is_str value_str &&
        PyStr.contains (PyStr.lower search_term) (PyStr.lower (py_str value_str)))
  else if PyStr.contains "==" filter_str then
    field ← PyStr.split_1 "==" filter_str;
    let compare_value := PyStr.strip_chars quote_chars (PyStr.strip field) in
    Ok (except_false
          (if PyStr.isdigit compare_value then
             a ← py_float value_str;
             b ← float_of_text compare_value;
             Ok (float_eqb a b)
           else
             Ok (String.eqb (PyStr.lower (py_str value_str))
                            (PyStr.lower compare_value))))
  else
    let threshold sep :=
      field ← PyStr.split_1 sep filter_str;
      float_of_text (PyStr.strip field) in
    let numeric : result (option bool) :=
      value ← py_float value_str;
      if PyStr.contains ">" filter_str then
        th ← threshold ">"; Ok (Some (float_gtb value th))
      else if PyStr.contains "<" filter_str then
        th ← threshold "<"; Ok (Some (float_ltb value th))
      else if PyStr.contains ">=" filter_str then
        th ← threshold ">="; Ok (Some (float_geb value th))
      else if PyStr.contains "<=" filter_str then
        th ← threshold "<="; Ok (Some (float_leb value th))
      else Ok None in
    match numeric with
    | Raise _ => Ok false
    | Ok (Some b) => Ok b
    | Ok None => Ok true
    end.

End app.
End App.

(* ================================================================== *)
(** ** search_function.py: class [PatternPropertyExplorer] *)

Module PatternPropertyExplorer.
Section explorer.
Context `{PyFloat}.

Record t := {
  pattern_data : GraphData;
  pattern_graph : nx.DiGraph;
  graph_renderer : option Renderer;
}.

(** [_evaluate_filter], lines 461-495 *)
Definition _evaluate_filter (value : PropertyValue) (filter_condition : string)
  : result bool :=
  if PyStr.is_empty filter_condition then Ok true
  else
    let filter_condition := PyStr.lower (PyStr.strip filter_condition) in
    if PyStr.contains "contains" filter_condition then
      field ← PyStr.split_1 "contains" filter_condition;
      let search_term := PyStr.strip_chars quote_chars (PyStr.strip field) in
      Ok (is_str value &&
          PyStr.contains (PyStr.lower search_term) (PyStr.lower (py_str value)))
    else if PyStr.startswith "==" filter_condition ||
            PyStr.contains "=" filter_condition then
      let compare_value :=
        PyStr.strip_chars quote_chars
          (PyStr.strip
             (PyStr.replace "=" EmptyString
                (PyStr.replace "==" EmptyString filter_condition))) in
      Ok (except_false
            (if PyStr.isdigit compare_value then
               a ← py_float value;
               b ← float_of_text compare_value;
               Ok (float_eqb a b)
             else
               Ok (String.eqb (PyStr.lower (py_str value))
                              (PyStr.lower compare_value))))
    else
      let numeric : result (option bool) :=
        numeric_value ← py_float value;
        if PyStr.startswith ">" filter_condition then
          threshold ← float_of_text (PyStr.strip (PyStr.drop 1 filter_condition));
          Ok (Some (App.float_gtb numeric_value threshold))
        else if PyStr.startswith "<" filter_condition then
          threshold ← float_of_text (PyStr.strip (PyStr.drop 1 filter_condition));
          Ok (Some (float_ltb numeric_value threshold))
        else Ok None in
      match numeric with
      | Raise _ => Ok false
      | Ok (Some b) => Ok b
      | Ok None => Ok true
      end.

(** A filter request of the property explorer: the arguments of
    [_apply_filter]. *)
Record Filter := {
  node_type : string;
  property_name : string;
  filter_condition : string;
}.

(** [is not None] *)
Definition is_not_None (o : option PropertyValue) : bool :=
  match o with
  | None | Some PNone => false
  | Some _ => true
  end.

(** the [matches] expression of [_apply_filter], lines 441-447 *)
Definition matches (e : t) (f : Filter) (node : string) : result bool :=
  node_info ← of_option KeyError (OrderedDict.get node (nodes (pattern_data e)));
  let current_type := primary_label node_info in
  let property_value := properties node_info !! property_name f in
  if bool_decide (current_type = node_type f) && is_not_None property_value
  then _evaluate_filter (default PNone property_value) (filter_condition f)
  else Ok false.

(** the loop of [_apply_filter], lines 440-453 *)
Fixpoint filter_loop (e : t) (f : Filter) (ns : list string)
  : result (list string * nat) :=
  match ns with
  | [] => Ok ([], 0)
  | node :: rest =>
      m ← matches e f node;
      '(node_colors, matching_count) ← filter_loop e f rest;
      Ok (if m : bool then ("#FFD700" :: node_colors, S matching_count)
          else ("#CCCCCC" :: node_colors, matching_count))
  end.

(** [_apply_filter], lines 431-459: the explorer after the call and the
    printed number of matching nodes *)
Definition _apply_filter (e : t) (f : Filter) : result (t * nat) :=
  '(node_colors, matching_count) ← filter_loop e f (nx.nodes (pattern_graph e));
  Ok ({| pattern_data := pattern_data e; pattern_graph := pattern_graph e;
         graph_renderer :=
           match graph_renderer e with
           | Some r => Some {| color := node_colors; radius := radius r |}
           | None => None
           end |},
      matching_count).

(** Pressing "Apply Filter" once per filter of a sequence, in order; the
    result is the explorer after the last call and the count it printed. *)
Fixpoint apply_all (e : t) (last : nat) (fs : list Filter) : result (t * nat) :=
  match fs with
  | [] => Ok (e, last)
  | f :: rest => '(e', n) ← _apply_filter e f; apply_all e' n rest
  end.

End explorer.
End PatternPropertyExplorer.

(* ================================================================== *)
(** ** graph_plotting.py: [GraphPlotter.create_pattern_visualization] *)

Module PatternPlot.
Section pattern_plot.
Context `{PyFloat}.

(** the branch of the colouring loop for one node type, lines 182-191 *)
Definition pattern_style (node_type_a node_type_b : string)
    (node_type : PropertyValue) : string * Z :=
  if eq_str node_type node_type_a then ("#FFD700", 15%Z)
  else if eq_str node_type node_type_b then ("#FF6B6B", 15%Z)
  else ("#CCCCCC", 10%Z).

(** the colouring loop, lines 179-191: [pattern_G.nodes[node]["type"]]
    raises [KeyError] on a node without that attribute *)
Fixpoint pattern_styling_loop (node_type_a node_type_b : string)
    (tbl : list (string * nx.NodeEntry)) : result (list string * list Z) :=
  match tbl with
  | [] => Ok ([], [])
  | (_, e) :: rest =>
      node_type ← of_option KeyError (nx.attrs e !! "type");
      '(cs, ss) ← pattern_styling_loop node_type_a node_type_b rest;
      Ok ((pattern_style node_type_a node_type_b node_type).1 :: cs,
          (pattern_style node_type_a node_type_b node_type).2 :: ss)
  end.

(** [create_pattern_visualization], lines 129-232: the colour and radius
    columns of the node renderer, and the pattern graph.  Lines 148-163
    build the pattern graph with the code of [_create_networkx_graph];
    the figure, the layout and the glyphs that Bokeh makes are not part
    of the model. *)
Definition create_pattern_visualization (pattern_data : GraphData)
    (node_type_a relationship_type node_type_b : string)
  : result (Renderer * nx.DiGraph) :=
  pattern_G ← GraphPlotter._create_networkx_graph pattern_data;
  '(node_colors, node_sizes) ←
    pattern_styling_loop node_type_a node_type_b (nx.table pattern_G);
  Ok ({| color := node_colors; radius := node_sizes |}, pattern_G).

End pattern_plot.
End PatternPlot.

(* ================================================================== *)
(** ** graph_plotting.py: [GraphPlotter.create_visualization] *)

Module MainPlot.
Section main_plot.
Context `{PyFloat}.


End main_plot.
End MainPlot.

(* ================================================================== *)
(** ** Project files/app.py: [create_visualization_plot] *)

Module AppPatternPlot.
Section app_pattern_plot.
Context `{PyFloat}.



End app_pattern_plot.
End AppPatternPlot.

(* ================================================================== *)
(** ** graph_plotting.py: [GraphPlotter._get_node_name] *)

Module NodeName.
Section node_name.
Context `{PyFloat}.

(** [bool(v)]: the truth value of a property value *)
Definition py_bool (v : PropertyValue) : bool :=
  match v with
  | PNone => false
  | PBool b => b
  | PInt n => negb (n =? 0)%Z
  | PFloat x => negb (float_eqb_int x 0)
  | PStr s => negb (PyStr.is_empty s)
  | PList l => match l with [] => false | _ => true end
  end.

(** the loop over the name fields, lines 271-273: the first field that is
    present with a true value *)
Fixpoint first_name (name_fields : list string)
    (node_data : gmap string PropertyValue) : option PropertyValue :=
  match name_fields with
  | [] => None
  | name_field :: rest =>
      match node_data !! name_field with
      | Some v => if py_bool v then Some v else first_name rest node_data
      | None => first_name rest node_data
      end
  end.

(** [s.split(sep)[-1]] for a separator of one character *)
Fixpoint split_last (sep : ascii) (s : string) : string :=
  match s with
  | EmptyString => EmptyString
  | String c r =>
      if PyStr.mem_char sep r then split_last sep r
      else if Ascii.eqb c sep then r else String c r
  end.

(** [s[:n]] *)
Fixpoint take (n : nat) (s : string) : string :=
  match n, s with
  | S n', String c s' => String c (take n' s')
  | _, _ => EmptyString
  end.

(** [_get_node_name], lines 263-278 *)
Definition _get_node_name (graph : nx.DiGraph) (node_id : string)
  : result string :=
  node_data ← nx.node_data graph node_id;
  match first_name ["name"; "title"; "Series_Title"; "Name"] node_data with
  | Some v => Ok (py_str v)
  | None =>
      let node_type := GraphPlotter.get_type node_data in
      let short_id :=
        if PyStr.contains ":" node_id
        then take 8 (split_last ":" node_id) else take 8 node_id in
      Ok (py_str node_type +:+ "_" +:+ short_id)
  end.

End node_name.
End NodeName.

(* ================================================================== *)
(** ** search_function.py: [GraphSearchInterface._create_pattern_visualization] *)

Module GraphSearchInterface.
Section search_interface.
Context `{PyFloat}.




End search_interface.
End GraphSearchInterface.

(* ================================================================== *)
(** ** Project files/app.py: [create_property_controls] *)

Module PropertyControls.
Section property_controls.
Context `{PyFloat}.

(** truth value of a widget value: [None] and the empty string are false *)
Definition truthy (value : option string) : bool :=
  match value with
  | Some s => negb (PyStr.is_empty s)
  | None => false
  end.

(** the [matches_filter] expression of [apply_filter], lines 752-756 *)
Definition matches_filter (selected_type selected_property filter_condition : string)
    (node_info : NodeInfo) : result bool :=
  let node_type := primary_label node_info in
  let property_value := properties node_info !! selected_property in
  if bool_decide (node_type = selected_type) &&
     PatternPropertyExplorer.is_not_None property_value
  then App.parse_filter_condition (default PNone property_value) filter_condition
  else Ok false.

(** the tooltip entry, lines 767-769 *)
Definition tooltip (selected_property : string) (property_value : option PropertyValue)
  : string :=
  if PatternPropertyExplorer.is_not_None property_value
  then selected_property +:+ ": " +:+ py_str (default PNone property_value)
  else EmptyString.

(** What the node loop of [apply_filter] collects. *)
Record NodeColumns := {
  node_colors : list string;
  node_sizes : list Z;
  properties_list : list string;
  matching_nodes : gset string;
}.

(** the node loop of [apply_filter], lines 746-769 *)
Fixpoint node_loop (graph_data : GraphData)
    (selected_type selected_property filter_condition : string)
    (ns : list string) : result NodeColumns :=
  match ns with
  | [] => Ok {| node_colors := []; node_sizes := []; properties_list := [];
                matching_nodes := ∅ |}
  | node :: rest =>
      node_info ← of_option KeyError (OrderedDict.get node (nodes graph_data));
      m ← matches_filter selected_type selected_property filter_condition
             node_info;
      cols ← node_loop graph_data selected_type selected_property
                filter_condition rest;
      let entry := tooltip selected_property
                     (properties node_info !! selected_property) in
      Ok (if m : bool
          then {| node_colors := "#FFD700" :: node_colors cols;
                  node_sizes := 20%Z :: node_sizes cols;
                  properties_list := entry :: properties_list cols;
                  matching_nodes := {[ node ]} ∪ matching_nodes cols |}
          else {| node_colors := "#CCCCCC" :: node_colors cols;
                  node_sizes := 10%Z :: node_sizes cols;
                  properties_list := entry :: properties_list cols;
                  matching_nodes := matching_nodes cols |})
  end.

(** the edge loop of [apply_filter], lines 772-781 *)
Definition edge_style (matching : gset string) (edge : string * string)
  : string * Z :=
  if bool_decide (edge.1 ∈ matching) && bool_decide (edge.2 ∈ matching)
  then ("#FF1493", 2%Z) else ("#CCCCCC", 1%Z).

(** What [apply_filter] shows: the columns of the node renderer, the line
    colours and widths of the edge glyph, and the two numbers of the
    printed summary. *)
Record FilterView := {
  columns : NodeColumns;
  edge_colors : list string;
  edge_widths : list Z;
  matching_total : nat;
  nodes_total : nat;
}.

(** [apply_filter], lines 729-797.  [None] is the early return for a
    missing selection or an empty condition, which changes nothing. *)
Definition apply_filter (graph_data : GraphData) (pattern_G : nx.DiGraph)
    (selected_type selected_property : option string)
    (filter_condition : string) : result (option FilterView) :=
  if negb (truthy selected_type && truthy selected_property &&
           truthy (Some filter_condition))
  then Ok None
  else
    cols ← node_loop graph_data (default EmptyString selected_type)
              (default EmptyString selected_property) filter_condition
              (nx.nodes pattern_G);
    let styles := map (edge_style (matching_nodes cols)) (nx.edges pattern_G) in
    Ok (Some {| columns := cols;
                edge_colors := styles.*1;
                edge_widths := styles.*2;
                matching_total := size (matching_nodes cols);
                nodes_total := length (nx.nodes pattern_G) |}).

End property_controls.
End PropertyControls.

(* ================================================================== *)
(** ** Project files/app.py: the text search of the main plot *)

Module AppSearch.
Section app_search.
Context `{PyFloat}.

(** [l[i] = v] on a list *)
Definition set_item (l : list string) (i : nat) (v : string)
  : result (list string) :=
  if decide (i < length l)%nat then Ok (<[i := v]> l) else Raise IndexError.

(** The loop of the first [search_nodes], lines 301-314.  [node_colors] is
    the colour column itself and is updated in place, [original_colors]
    is its copy: the result is the column when the loop ends, and the
    exception that ended it, if any. *)
Fixpoint search_loop (search_term : string) (original_colors : list string)
    (i : nat) (tbl : list (string * nx.NodeEntry)) (node_colors : list string)
  : list string * option exn :=
  match tbl with
  | [] => (node_colors, None)
  | (_, e) :: rest =>
      let updated :=
        c ← (if GraphPlotter.found search_term (nx.attrs e) then Ok "#FFD700"
             else of_option IndexError (original_colors !! i));
        set_item node_colors i c in
      match updated with
      | Ok node_colors' =>
          search_loop search_term original_colors (S i) rest node_colors'
      | Raise x => (node_colors, Some x)
      end
  end.

(** the first [search_nodes], lines 294-316, on the colour column [color]
    with the text [value] of the search box *)
Definition search_nodes (G : nx.DiGraph) (value : string) (color : list string)
  : list string * option exn :=
  let search_term := PyStr.lower value in
  if PyStr.is_empty search_term then (color, None)
  else search_loop search_term color 0 (nx.table G) color.

End app_search.
End AppSearch.

(* ================================================================== *)
(** ** fetch_graph_data.py: class [GraphDataFetcher]

    What the methods do with the records that the database returns.  A
    record is a dictionary with the fields of the query; the queries
    themselves and the connection are not part of the model. *)

Module GraphDataFetcher.
Section fetcher.
Context `{PyFloat}.

(** a node record [{id, labels, properties}]; the id is [None] for the
    null that an [OPTIONAL MATCH] can return *)
Record NodeRecord := {
  node_id : option string;
  node_labels : list string;
  node_properties : gmap string PropertyValue;
}.

(** a relationship record [{id, type, properties, start_node, end_node}] *)
Record RelRecord := {
  rel_id : option string;
  rel_record_type : string;
  rel_record_properties : gmap string PropertyValue;
  rel_start_node : string;
  rel_end_node : string;
}.

Definition node_entry (node : NodeRecord) : NodeInfo :=
  {| labels := node_labels node; properties := node_properties node |}.

Definition rel_entry (rel : RelRecord) : RelInfo :=
  {| rel_type := rel_record_type rel;
     rel_properties := Some (rel_record_properties rel);
     start_node := rel_start_node rel; end_node := rel_end_node rel |}.

(** [if node["id"]]: [None] and the empty string are false *)
Definition truthy_id (id : option string) : option string :=
  match id with
  | Some s => if PyStr.is_empty s then None else Some s
  | None => None
  end.

(** The two loops of [get_limited_graph_data], lines 138-155:
    [if node["id"]: nodes_data[node["id"]] = {...}] *)
Definition limited_nodes (rows : list NodeRecord) : list (string * NodeInfo) :=
  fold_left
    (λ nodes_data node,
       match truthy_id (node_id node) with
       | Some id => OrderedDict.set id (node_entry node) nodes_data
       | None => nodes_data
       end) rows [].

Definition limited_relationships (rows : list RelRecord)
  : list (string * RelInfo) :=
  fold_left
    (λ rel_data rel,
       match truthy_id (rel_id rel) with
       | Some id => OrderedDict.set id (rel_entry rel) rel_data
       | None => rel_data
       end) rows [].

(** the payload [get_limited_graph_data] returns for the record lists of
    the first result row *)
Definition get_limited_graph_data (node_rows : list NodeRecord)
    (rel_rows : list RelRecord) : GraphData :=
  {| nodes := limited_nodes node_rows;
     relationships := limited_relationships rel_rows |}.

(** [d[k] = d.get(k, 0) + 1] on a dictionary of counters with string keys *)
Definition count_key (d : list (string * nat)) (k : string)
  : list (string * nat) :=
  OrderedDict.set k (default 0 (OrderedDict.get k d) + 1) d.

(** [_get_node_type_counts], lines 303-309: every label of every node *)
Definition _get_node_type_counts (node_data : list (string * NodeInfo))
  : list (string * nat) :=
  fold_left (λ node_types node, fold_left count_key (labels node.2) node_types)
    node_data [].

(** [_get_relationship_type_counts], lines 311-316 *)
Definition _get_relationship_type_counts (rel_data : list (string * RelInfo))
  : list (string * nat) :=
  fold_left (λ rel_types rel, count_key rel_types (rel_type rel.2)) rel_data [].

End fetcher.
End GraphDataFetcher.

(* ================================================================== *)
(** ** app.py: [Neo4jGraphApp._create_statistics_panel] *)

Module StatisticsPanel.
Section statistics_panel.
Context `{PyFloat}.

(** [_create_statistics_panel], lines 227-287: the statistics that the
    panel shows, [None] for the panel without statistics of an application
    without plotter.  The text is made with the [format] method of a
    template, given the entries of [stats] as keywords; it raises
    [KeyError] for a field that [stats] lacks, and the empty dictionary
    lacks them all. *)
Definition _create_statistics_panel (graph_plotter : option GraphPlotter.t)
  : result (option GraphPlotter.Statistics) :=
  match graph_plotter with
  | None => Ok None
  | Some p =>
      stats ← GraphPlotter.get_graph_statistics p;
      shown ← of_option KeyError stats;
      Ok (Some shown)
  end.

End statistics_panel.
End StatisticsPanel.

(* ================================================================== *)
(** ** Facts about the string methods *)

Module PyStrFacts.
Import PyStr.

Lemma rstrip_by_head p x c r :
  rstrip_by p x = String c r → ∃ r', x = String c r'.
Proof.
  destruct x as [|d x']; simpl; [discriminate|].
  destruct (p d && is_empty (rstrip_by p x')); [discriminate|].
  intros [= -> _]. eauto.
Qed.

Lemma rstrip_by_keeps p c s :
  p c = false → rstrip_by p (String c s) = String c (rstrip_by p s).
Proof. intros Hc. simpl. by rewrite Hc. Qed.

Lemma strip_by_keeps p c s :
  p c = false → strip_by p (String c s) = String c (rstrip_by p s).
Proof. intros Hc. unfold strip_by. simpl. rewrite Hc. by apply rstrip_by_keeps. Qed.

Lemma strip_by_head p s c r :
  strip_by p s = String c r → ∃ r', lstrip_by p s = String c r'.
Proof. apply rstrip_by_head. Qed.

Lemma uint_head d :
  ∃ c r, NilZero.string_of_uint d = String c r ∧ is_digit c = true.
Proof. destruct d; simpl; eauto. Qed.

Lemma of_Z_head n :
  ∃ c r, of_Z n = String c r ∧ (is_digit c || mem_char c "-") = true.
Proof.
  unfold of_Z. destruct (Z.to_int n) as [d|d]; simpl.
  - destruct (uint_head d) as (c & r & -> & Hc). exists c, r. by rewrite Hc.
  - eauto.
Qed.

Lemma all_digits_head c r : isdigit (String c r) = true → is_digit c = true.
Proof. unfold isdigit. simpl. by intros [? _]%andb_prop. Qed.

End PyStrFacts.

(* ================================================================== *)
(** ** A reference float: integral values

    A float that holds an integer exactly.  It shows that the interface
    [PyFloat] and its two laws can be met; all theorems are stated for
    every [PyFloat]. *)

Module IntegralFloat.
Import PyStr.

Definition of_digits (s : string) : option Z :=
  if isdigit s then Z.of_uint <$> NilEmpty.uint_of_string s else None.

Definition parse (s : string) : option Z :=
  match strip s with
  | String "-" r => Z.opp <$> of_digits r
  | String "+" r => of_digits r
  | t => of_digits t
  end.

Lemma parse_start s x :
  parse s = Some x →
  ∃ c r, lstrip_by is_space s = String c r ∧
         (is_digit c || mem_char c "+-.iInN") = true.
Proof.
  unfold parse. intros Hp.
  assert (∃ c r, strip s = String c r ∧
                 (is_digit c || mem_char c "+-.iInN") = true) as (c & r & Hs & Hc).
  { destruct (strip s) as [|c r] eqn:Hs; [discriminate|].
    exists c, r. split; [done|].
    destruct (is_digit c) eqn:Hd; [done|].
    destruct (Ascii.eqb c "-") eqn:Hm; [by apply Ascii.eqb_eq in Hm as ->|].
    destruct (Ascii.eqb c "+") eqn:Hpl; [by apply Ascii.eqb_eq in Hpl as ->|].
    exfalso.
    assert (of_digits (String c r) = Some x) as Hx.
    { destruct c as [[] [] [] [] [] [] [] []]; try done. }
    unfold of_digits in Hx.
    destruct (isdigit (String c r)) eqn:Hi; [|discriminate].
    apply PyStrFacts.all_digits_head in Hi. congruence. }
  apply PyStrFacts.strip_by_head in Hs as [r' Hs]. eauto.
Qed.

Lemma show_start (x : Z) :
  ∃ c r, of_Z x +:+ ".0" = String c r ∧
         (is_digit c || mem_char c "-in") = true.
Proof.
  destruct (PyStrFacts.of_Z_head x) as (c & r & -> & Hc).
  exists c, (r +:+ ".0"). split; [done|].
  destruct (is_digit c); [done|]. simpl in *.
  destruct (Ascii.eqb c "-"); [done|discriminate].
Qed.

#[export] Instance integral_float : PyFloat := {|
  pyfloat := Z;
  float_of_int := Some;
  float_of_str := parse;
  float_eqb := Z.eqb;
  float_ltb := Z.ltb;
  float_eqb_int := Z.eqb;
  float_str := λ x, of_Z x +:+ ".0";
  str_repr := λ s, "'" +:+ s +:+ "'";
  float_of_str_start := parse_start;
  float_str_start := show_start;
|}.

End IntegralFloat.

(* ================================================================== *)
(** ** Loops and ordered dictionaries *)

Section LoopFacts.
Context {A S : Type}.

Lemma for_each_ext (f g : S → A → result S) xs s :
  (∀ s x, f s x = g s x) → for_each f xs s = for_each g xs s.
Proof.
  intros Hfg. revert s. induction xs as [|x xs IH]; intros s; simpl; [done|].
  rewrite Hfg. destruct (g s x); simpl; [apply IH|done].
Qed.

End LoopFacts.

Module OrderedDictFacts.
Import OrderedDict.
Section facts.
Context {V : Type}.
Implicit Types d : list (string * V).

Lemma get_set_eq k v d : get k (set k v d) = Some v.
Proof.
  induction d as [|[k' v'] d IH]; simpl.
  - by rewrite decide_True.
  - destruct (decide (k' = k)) as [->|Hne]; simpl.
    + by rewrite decide_True.
    + by rewrite decide_False.
Qed.

Lemma get_set_ne k k' v d : k ≠ k' → get k' (set k v d) = get k' d.
Proof.
  intros Hne. induction d as [|[k0 v0] d IH]; simpl.
  - by rewrite decide_False.
  - destruct (decide (k0 = k)) as [->|Hk]; simpl.
    + by rewrite !decide_False.
    + by rewrite IH.
Qed.

Lemma get_set k k' v d :
  get k' (set k v d) = if decide (k = k') then Some v else get k' d.
Proof.
  destruct (decide (k = k')) as [->|Hne];
    [apply get_set_eq | by apply get_set_ne].
Qed.

Lemma get_Some_elem k v d : get k d = Some v → (k, v) ∈ d.
Proof.
  induction d as [|[k' v'] d IH]; simpl; [done|].
  destruct (decide (k' = k)) as [->|Hne].
  - intros [= ->]. apply list_elem_of_here.
  - intros Hg. apply list_elem_of_further. by apply IH.
Qed.

Lemma get_None_keys k d : get k d = None ↔ k ∉ keys d.
Proof.
  unfold keys. induction d as [|[k' v'] d IH]; simpl.
  - split; [intros _; apply not_elem_of_nil | done].
  - rewrite not_elem_of_cons. destruct (decide (k' = k)) as [->|Hne].
    + split; [done | intros [? _]; done].
    + rewrite IH. split; [intros ?; split; [congruence|done] | intros [_ ?]; done].
Qed.

Lemma get_is_Some_keys k d : is_Some (get k d) ↔ k ∈ keys d.
Proof.
  destruct (get k d) as [v|] eqn:Hg.
  - split; [intros _ | by eauto].
    destruct (decide (k ∈ keys d)) as [|Hn]; [done|].
    apply get_None_keys in Hn. congruence.
  - split; [by intros [? [=]] | intros Hin].
    apply get_None_keys in Hg. done.
Qed.

Lemma elem_get_NoDup k v d : NoDup (keys d) → (k, v) ∈ d → get k d = Some v.
Proof.
  unfold keys. induction d as [|[k' v'] d IH]; simpl.
  - intros _ Hin. by apply elem_of_nil in Hin.
  - intros [Hk Hnd]%NoDup_cons [[= -> ->] | Hin]%elem_of_cons.
    + by rewrite decide_True.
    + rewrite decide_False; [by apply IH|].
      intros ->. apply Hk. apply list_elem_of_fmap. by exists (k, v).
Qed.

(** Every entry of [set k v d] is [(k, v)] or an entry of [d]. *)
Lemma elem_set k v d x : x ∈ set k v d → x = (k, v) ∨ x ∈ d.
Proof.
  induction d as [|[k' v'] d IH]; simpl.
  - intros ->%list_elem_of_singleton. by left.
  - destruct (decide (k' = k)) as [->|Hne].
    + intros [->|Hin]%elem_of_cons; [by left|]. right. by apply list_elem_of_further.
    + intros [->|Hin]%elem_of_cons; [right; apply list_elem_of_here|].
      destruct (IH Hin) as [->|Hd]; [by left|]. right. by apply list_elem_of_further.
Qed.

Lemma Forall_set (P : string * V → Prop) k v d :
  P (k, v) → Forall P d → Forall P (set k v d).
Proof.
  intros Hkv Hd. apply Forall_forall. intros x Hx.
  destruct (elem_set _ _ _ _ Hx) as [->|Hin]; [done|].
  by eapply Forall_forall in Hd.
Qed.

Lemma set_fresh k v d : get k d = None → set k v d = d ++ [(k, v)].
Proof.
  induction d as [|[k' v'] d IH]; simpl; [done|].
  destruct (decide (k' = k)); [done|]. intros Hg. by rewrite IH.
Qed.

End facts.
End OrderedDictFacts.

(* ================================================================== *)
(** ** Graph statistics (graph_plotting.py, [get_graph_statistics]) *)

Section StatisticsFacts.
Context `{PyFloat}.
Import GraphPlotter.

(** the sum of the counts of a histogram *)
Definition sum_counts (d : list (PropertyValue * nat)) : nat := sum_list d.*2.

(** every node type and every edge type of the graph can be a dictionary key *)
Definition types_hashable (g : nx.DiGraph) : Prop :=
  Forall (λ x, hashable (get_type (nx.attrs x.2)) = true) (nx.table g) ∧
  Forall (λ x, hashable (get_type x.2) = true) (nx.edges_data g).

Lemma count_up_sum k d : sum_counts (count_up k d) = S (sum_counts d).
Proof.
  induction d as [|[k' n] d IH]; [done|].
  change (sum_counts ((k', n) :: d)) with (n + sum_counts d).
  simpl. destruct (key_eqb k' k).
  - change (sum_counts ((k', S n) :: d)) with (S n + sum_counts d). lia.
  - change (sum_counts ((k', n) :: count_up k d))
      with (n + sum_counts (count_up k d)). rewrite IH. lia.
Qed.

Lemma count_loop {A} (proj : A → gmap string PropertyValue) xs d :
  match for_each (λ d x, count_type d (proj x)) xs d with
  | Ok d' => sum_counts d' = sum_counts d + length xs ∧
             Forall (λ x, hashable (get_type (proj x)) = true) xs
  | Raise e => e = TypeError ∧
               ¬ Forall (λ x, hashable (get_type (proj x)) = true) xs
  end.
Proof.
  revert d. induction xs as [|x xs IH]; intros d.
  - simpl. split; [lia|constructor].
  - change (for_each (λ d x, count_type d (proj x)) (x :: xs) d)
      with (d' ← count_type d (proj x);
            for_each (λ d x, count_type d (proj x)) xs d').
    assert (count_type d (proj x) =
            if hashable (get_type (proj x))
            then Ok (count_up (get_type (proj x)) d) else Raise TypeError)
      as -> by done.
    destruct (hashable (get_type (proj x))) eqn:Hh; simpl.
    + specialize (IH (count_up (get_type (proj x)) d)).
      destruct (for_each _ xs _) as [d'|e].
      * destruct IH as [Hs Hall]. rewrite count_up_sum in Hs.
        split; [lia | by constructor].
      * destruct IH as [-> Hn]. split; [done|].
        intros [_ ?]%Forall_cons. done.
    + split; [done|]. intros [? _]%Forall_cons. congruence.
Qed.

Lemma number_of_edges_length g :
  nx.number_of_edges g = length (nx.edges g).
Proof.
  unfold nx.number_of_edges, nx.edges, nx.edges_data.
  rewrite length_map.
  induction (nx.table g) as [|[u e] tbl IH]; simpl; [done|].
  rewrite length_app, length_map, IH. done.
Qed.

Lemma number_of_nodes_length g :
  nx.number_of_nodes g = length (nx.nodes g).
Proof. unfold nx.number_of_nodes, nx.nodes, OrderedDict.keys. by rewrite length_fmap. Qed.

(** C7.  For every plotter, [get_graph_statistics] behaves in one of three
    ways.  It returns the statistics, and then the counts of the node-type
    histogram sum to [total_nodes], those of the edge-type histogram sum to
    [total_edges], and the two totals are the numbers of nodes and edges
    of the graph (every node and every edge is counted exactly once).  Or
    the graph has no node and the result is the empty dictionary.  Or some
    node or edge type is unhashable (a list) and the call raises
    [TypeError]. *)
Theorem statistics_histograms_sum (p : t) :
  match get_graph_statistics p with
  | Ok (Some st) =>
      sum_counts (node_types st) = total_nodes st ∧
      sum_counts (edge_types st) = total_edges st ∧
      total_nodes st = length (nx.nodes (G p)) ∧
      total_edges st = length (nx.edges (G p)) ∧
      types_hashable (G p)
  | Ok None => nx.nodes (G p) = []
  | Raise e => e = TypeError ∧ ¬ types_hashable (G p)
  end.
Proof.
  unfold get_graph_statistics. case_bool_decide as Hn.
  - rewrite number_of_nodes_length in Hn. by apply nil_length_inv.
  - rewrite (for_each_ext _ (λ d x, count_type d (nx.attrs x.2)));
      [|by intros d [? ?]].
    pose proof (count_loop (λ x : string * nx.NodeEntry, nx.attrs x.2)
                  (nx.table (G p)) []) as Hnodes.
    destruct (for_each _ (nx.table (G p)) []) as [nt|e]; simpl.
    + rewrite (for_each_ext _ (λ d x, count_type d x.2));
        [|by intros d [[? ?] ?]].
      pose proof (count_loop
                    (λ x : string * string * gmap string PropertyValue, x.2)
                    (nx.edges_data (G p)) []) as Hedges.
      destruct (for_each _ (nx.edges_data (G p)) []) as [et|e]; simpl.
      * destruct Hnodes as [Hs1 Ha1], Hedges as [Hs2 Ha2].
        rewrite <- number_of_edges_length, <- number_of_nodes_length.
        unfold nx.number_of_nodes. simpl in *.
        split_and!; [done| |done|done|by split].
        rewrite Hs2, number_of_edges_length. unfold nx.edges.
        by rewrite length_map.
      * destruct Hedges as [-> Hn2]. split; [done|]. by intros [_ ?].
    + destruct Hnodes as [-> Hn1]. split; [done|]. by intros [? _].
Qed.

End StatisticsFacts.

(* ================================================================== *)
(** ** Building the graph ([_create_networkx_graph]) *)

Section BuildFacts.
Context `{PyFloat}.
Import GraphPlotter OrderedDictFacts.

(** no property of the node is named like a parameter of [add_node] *)
Definition node_keywords_free (info : NodeInfo) : Prop :=
  properties info !! "self" = None ∧
  properties info !! "node_for_adding" = None.

(** no property of the relationship is named like a parameter of
    [add_edge] or like the explicit keyword [type] *)
Definition rel_keywords_free (r : RelInfo) : Prop :=
  rel_props r !! "self" = None ∧ rel_props r !! "u_of_edge" = None ∧
  rel_props r !! "v_of_edge" = None ∧ rel_props r !! "type" = None.

(** The payloads on which no call of the builder raises [TypeError]. *)
Definition keywords_free (gd : GraphData) : Prop :=
  Forall (λ x, node_keywords_free x.2) (nodes gd) ∧
  Forall (λ x, rel_keywords_free x.2) (relationships gd).

(** the two loops of the builder without the keyword check *)
Definition add_nodes (ns : list (string * NodeInfo)) (g : nx.DiGraph)
  : nx.DiGraph :=
  fold_left (λ g x, nx.add_node x.1 (node_props x.2) g) ns g.

Definition edge_attr (r : RelInfo) : gmap string PropertyValue :=
  <["type" := PStr (rel_type r)]> (rel_props r).

Definition add_edges (rs : list (string * RelInfo)) (g : nx.DiGraph)
  : nx.DiGraph :=
  fold_left (λ g x, nx.add_edge (start_node x.2) (end_node x.2) (edge_attr x.2) g)
    rs g.

Lemma node_props_lookup info k :
  node_props info !! k =
  match properties info !! k with
  | Some v => Some v
  | None => if decide (k = "label" ∨ k = "type")
            then Some (PStr (primary_label info)) else None
  end.
Proof.
  unfold node_props. rewrite lookup_union.
  assert ((<["label" := PStr (primary_label info)]>
             (<["type" := PStr (primary_label info)]> ∅)
           : gmap string PropertyValue) !! k
          = if decide (k = "label" ∨ k = "type")
            then Some (PStr (primary_label info)) else None) as ->.
  { destruct (decide (k = "label")) as [->|Hl].
    - rewrite lookup_insert_eq. by rewrite decide_True by auto.
    - rewrite lookup_insert_ne by done.
      destruct (decide (k = "type")) as [->|Ht].
      + rewrite lookup_insert_eq. by rewrite decide_True by auto.
      + rewrite lookup_insert_ne, lookup_empty by done.
        rewrite decide_False; [done|]. by intros [?|?]. }
  by destruct (properties info !! k), (decide _).
Qed.

(** [get_type] on the attributes of a built node: a property named
    [type] takes precedence over the primary label. *)
Lemma get_type_node_props info :
  get_type (node_props info) =
  default (PStr (primary_label info)) (properties info !! "type").
Proof.
  unfold get_type. rewrite node_props_lookup.
  by destruct (properties info !! "type").
Qed.

Lemma call_add_node_spec n info g :
  (node_keywords_free info ∧
   nx.call_add_node n (node_props info) g = Ok (nx.add_node n (node_props info) g)) ∨
  (¬ node_keywords_free info ∧
   nx.call_add_node n (node_props info) g = Raise TypeError).
Proof.
  unfold nx.call_add_node, nx.kwargs_clash, node_keywords_free. simpl.
  rewrite !node_props_lookup.
  destruct (properties info !! "self") as [v|]; simpl;
    [right; split; [by intros [[=] _] | done] |].
  destruct (properties info !! "node_for_adding") as [v|]; simpl;
    [right; split; [by intros [_ [=]] | done] |].
  by left.
Qed.

Lemma call_add_edge_spec r g :
  (rel_keywords_free r ∧
   nx.call_add_edge_type (start_node r) (end_node r) (PStr (rel_type r))
     (rel_props r) g
   = Ok (nx.add_edge (start_node r) (end_node r) (edge_attr r) g)) ∨
  (¬ rel_keywords_free r ∧
   nx.call_add_edge_type (start_node r) (end_node r) (PStr (rel_type r))
     (rel_props r) g = Raise TypeError).
Proof.
  unfold nx.call_add_edge_type, nx.kwargs_clash, rel_keywords_free. simpl.
  destruct (rel_props r !! "self") as [v|]; simpl;
    [right; split; [by intros [[=] _] | done] |].
  destruct (rel_props r !! "u_of_edge") as [v|]; simpl;
    [right; split; [by intros (_ & [=] & _) | done] |].
  destruct (rel_props r !! "v_of_edge") as [v|]; simpl;
    [right; split; [by intros (_ & _ & [=] & _) | done] |].
  destruct (rel_props r !! "type") as [v|]; simpl;
    [right; split; [by intros (_ & _ & _ & [=]) | done] |].
  by left.
Qed.

Lemma add_nodes_loop ns g :
  (Forall (λ x, node_keywords_free x.2) ns ∧
   for_each (λ g '(node_id, node_info),
               nx.call_add_node node_id (node_props node_info) g) ns g
   = Ok (add_nodes ns g)) ∨
  (¬ Forall (λ x, node_keywords_free x.2) ns ∧
   for_each (λ g '(node_id, node_info),
               nx.call_add_node node_id (node_props node_info) g) ns g
   = Raise TypeError).
Proof.
  revert g. induction ns as [|[n info] ns IH]; intros g; simpl.
  - left. split; [constructor|done].
  - destruct (call_add_node_spec n info g) as [[Hf ->]|[Hf ->]]; simpl.
    + destruct (IH (nx.add_node n (node_props info) g)) as [[Ha ->]|[Ha ->]].
      * left. split; [by constructor|done].
      * right. split; [|done]. by intros [_ ?]%Forall_cons.
    + right. split; [|done]. by intros [? _]%Forall_cons.
Qed.

Lemma add_edges_loop rs g :
  (Forall (λ x, rel_keywords_free x.2) rs ∧
   for_each (λ g '(rel_id, rel_info),
               nx.call_add_edge_type (start_node rel_info) (end_node rel_info)
                 (PStr (rel_type rel_info)) (rel_props rel_info) g) rs g
   = Ok (add_edges rs g)) ∨
  (¬ Forall (λ x, rel_keywords_free x.2) rs ∧
   for_each (λ g '(rel_id, rel_info),
               nx.call_add_edge_type (start_node rel_info) (end_node rel_info)
                 (PStr (rel_type rel_info)) (rel_props rel_info) g) rs g
   = Raise TypeError).
Proof.
  revert g. induction rs as [|[n r] rs IH]; intros g; simpl.
  - left. split; [constructor|done].
  - destruct (call_add_edge_spec r g) as [[Hf ->]|[Hf ->]]; simpl.
    + destruct (IH (nx.add_edge (start_node r) (end_node r) (edge_attr r) g))
        as [[Ha ->]|[Ha ->]].
      * left. split; [by constructor|done].
      * right. split; [|done]. by intros [_ ?]%Forall_cons.
    + right. split; [|done]. by intros [? _]%Forall_cons.
Qed.

(** The builder succeeds exactly on the payloads without a clashing
    property name, and is then the two folds; otherwise it raises
    [TypeError]. *)
Lemma create_networkx_graph_spec gd :
  (keywords_free gd ∧
   _create_networkx_graph gd
   = Ok (add_edges (relationships gd) (add_nodes (nodes gd) nx.empty))) ∨
  (¬ keywords_free gd ∧ _create_networkx_graph gd = Raise TypeError).
Proof.
  unfold _create_networkx_graph, keywords_free.
  destruct (add_nodes_loop (nodes gd) nx.empty) as [[Hn ->]|[Hn ->]]; simpl.
  - destruct (add_edges_loop (relationships gd) (add_nodes (nodes gd) nx.empty))
      as [[He ->]|[He ->]].
    + by left.
    + right. split; [|done]. by intros [_ ?].
  - right. split; [|done]. by intros [? _].
Qed.

End BuildFacts.

(* ================================================================== *)
(** ** networkx: lookups after [add_node] and [add_edge] *)

Section DiGraphFacts.
Context `{PyFloat}.
Import OrderedDictFacts.
Implicit Types g : nx.DiGraph.

Lemma get_add_node n a g n' :
  OrderedDict.get n' (nx.table (nx.add_node n a g)) =
  if decide (n = n')
  then Some match OrderedDict.get n (nx.table g) with
            | Some e => {| nx.attrs := a ∪ nx.attrs e; nx.succ := nx.succ e |}
            | None => nx.fresh a
            end
  else OrderedDict.get n' (nx.table g).
Proof.
  unfold nx.add_node.
  destruct (OrderedDict.get n (nx.table g)); simpl; apply get_set.
Qed.

Lemma get_ensure_node n g n' :
  OrderedDict.get n' (nx.table (nx.ensure_node n g)) =
  match OrderedDict.get n' (nx.table g) with
  | Some e => Some e
  | None => if decide (n = n') then Some (nx.fresh ∅) else None
  end.
Proof.
  unfold nx.ensure_node.
  destruct (OrderedDict.get n (nx.table g)) as [e|] eqn:Hn; simpl.
  - destruct (OrderedDict.get n' (nx.table g)) eqn:Hn'; [done|].
    rewrite decide_False; [done|]. intros ->. congruence.
  - rewrite get_set. destruct (decide (n = n')) as [->|Hne].
    + by rewrite Hn.
    + by destruct (OrderedDict.get n' (nx.table g)).
Qed.

(** the entry of [n] once the endpoints [u] and [v] exist *)
Definition with_endpoints (u v : string) g (n : string) : option nx.NodeEntry :=
  match OrderedDict.get n (nx.table g) with
  | Some e => Some e
  | None => if decide (n = u ∨ n = v) then Some (nx.fresh ∅) else None
  end.

Lemma get_ensure_both u v g n :
  OrderedDict.get n (nx.table (nx.ensure_node v (nx.ensure_node u g)))
  = with_endpoints u v g n.
Proof.
  rewrite !get_ensure_node. unfold with_endpoints.
  destruct (OrderedDict.get n (nx.table g)); [done|].
  destruct (decide (u = n)) as [->|Hu].
  - by rewrite decide_True by auto.
  - destruct (decide (v = n)) as [->|Hv].
    + by rewrite decide_True by auto.
    + rewrite decide_False; [done|]. intros [->| ->]; done.
Qed.

Lemma get_add_edge u v a g n :
  OrderedDict.get n (nx.table (nx.add_edge u v a g)) =
  if decide (n = u) then nx.put_edge v a <$> with_endpoints u v g n
  else with_endpoints u v g n.
Proof.
  unfold nx.add_edge.
  pose proof (get_ensure_both u v g u) as Hu.
  destruct (OrderedDict.get u _) as [e|] eqn:He.
  - simpl. rewrite get_set. destruct (decide (u = n)) as [->|Hne].
    + rewrite decide_True by done. by rewrite <- Hu.
    + rewrite decide_False by done. apply get_ensure_both.
  - exfalso. unfold with_endpoints in Hu.
    destruct (OrderedDict.get u (nx.table g)); [done|].
    rewrite decide_True in Hu by auto. done.
Qed.

(** [add_edge] leaves the attributes of existing nodes alone and creates
    missing endpoints without attributes. *)
Lemma attrs_add_edge u v a g n :
  nx.attrs <$> OrderedDict.get n (nx.table (nx.add_edge u v a g)) =
  match nx.attrs <$> OrderedDict.get n (nx.table g) with
  | Some x => Some x
  | None => if decide (n = u ∨ n = v) then Some ∅ else None
  end.
Proof.
  rewrite get_add_edge. unfold with_endpoints.
  destruct (decide (n = u)) as [->|Hne];
    destruct (OrderedDict.get _ (nx.table g)); simpl; try done;
    by destruct (decide _).
Qed.

(** [add_edge] creates or updates the one edge [(u, v)] and leaves the
    other edges alone. *)
Lemma edge_data_add_edge u v a g u' v' :
  nx.edge_data (nx.add_edge u v a g) u' v' =
  if decide (u' = u ∧ v' = v)
  then Some (a ∪ default ∅ (nx.edge_data g u v))
  else nx.edge_data g u' v'.
Proof.
  unfold nx.edge_data. rewrite get_add_edge. unfold with_endpoints.
  destruct (decide (u' = u)) as [->|Hu].
  - destruct (OrderedDict.get u (nx.table g)) as [e|] eqn:He; simpl.
    + rewrite get_set. destruct (decide (v = v')) as [->|Hv].
      * by rewrite decide_True by done.
      * rewrite decide_False; [done|]. by intros [_ ->].
    + rewrite decide_True by auto. simpl.
      destruct (decide (v = v')) as [->|Hv].
      * by rewrite !decide_True by done.
      * rewrite decide_False; [done|]. by intros [_ ->].
  - rewrite (decide_False (P := u' = u ∧ v' = v)) by (by intros [-> _]).
    destruct (OrderedDict.get u' (nx.table g)) as [e|] eqn:He; simpl; [done|].
    by destruct (decide _).
Qed.





End DiGraphFacts.

(* ================================================================== *)
(** ** Search and reset (graph_plotting.py, [highlight_nodes],
    [reset_node_colors]) *)

Section HighlightFacts.
Context `{PyFloat}.
Import GraphPlotter OrderedDictFacts.

Lemma contains_empty s : PyStr.contains EmptyString s = true.
Proof. by destruct s. Qed.



Lemma any_value_ext p q (d : gmap string PropertyValue) :
  (∀ v, p v = q v) → any_value p d = any_value q d.
Proof.
  intros Hpq. unfold any_value.
  induction ((map_to_list d).*2) as [|v l IH]; simpl; [done|].
  by rewrite Hpq, IH.
Qed.

(** With the empty search term the generator only tests the class of the
    value. *)
Lemma found_empty_term (d : gmap string PropertyValue) :
  found EmptyString d = any_value isinstance_str_int_float d.
Proof.
  unfold found. apply any_value_ext. intros v.
  unfold PyStr.find_ge_0. rewrite contains_empty. apply andb_true_r.
Qed.




(** the colour column [highlight_nodes] writes *)
Definition highlighted (hit : string * nx.NodeEntry → bool)
    (tbl : list (string * nx.NodeEntry)) (original_colors : list string)
  : list string :=
  zip_with (λ x c, if hit x then "#FFD700" else c) tbl original_colors.

(** the node ids [highlight_nodes] returns *)
Definition hits (hit : string * nx.NodeEntry → bool)
    (tbl : list (string * nx.NodeEntry)) : list string :=
  (filter (λ x, hit x = true) tbl).*1.

Lemma styling_loop_cons n e tbl cols sizes :
  styling_loop ((n, e) :: tbl) = Ok (cols, sizes) →
  ∃ c z cs zs, node_style (get_type (nx.attrs e)) = Ok (c, z) ∧
               styling_loop tbl = Ok (cs, zs) ∧ cols = c :: cs ∧ sizes = z :: zs.
Proof.
  simpl. destruct (node_style _) as [[c z]|]; simpl; [|done].
  destruct (styling_loop tbl) as [[cs zs]|]; simpl; [|done].
  intros [= <- <-]. by exists c, z, cs, zs.
Qed.

(** The loop of [highlight_nodes] never indexes [original_colors] out of
    range, and computes [highlighted] and [hits]. *)
Lemma highlight_loop_spec term tbl pre cols sizes :
  styling_loop tbl = Ok (cols, sizes) →
  highlight_loop term (pre ++ cols) (length pre) tbl
  = Ok (highlighted (λ x, found term (nx.attrs x.2)) tbl cols,
        hits (λ x, found term (nx.attrs x.2)) tbl).
Proof.
  revert pre cols sizes. induction tbl as [|[n e] tbl IH]; intros pre cols sizes.
  - by intros [= <- <-].
  - intros (c & z & cs & zs & Hst & Hrest & -> & ->)%styling_loop_cons.
    cbn [highlight_loop].
    assert (length (pre ++ [c]) = S (length pre)) as Hlen
      by (rewrite length_app; simpl; lia).
    specialize (IH (pre ++ [c]) cs zs Hrest).
    rewrite <- (assoc_L (++)), Hlen in IH. simpl in IH. rewrite IH.
    unfold hits, highlighted. simpl. rewrite filter_cons. simpl.
    destruct (found term (nx.attrs e)) eqn:Hf; simpl.
    + done.
    + by rewrite list_lookup_middle by done.
Qed.

(** [highlight_nodes] on a plotter that has a renderer and whose node
    types are all strings. *)
Lemma highlight_nodes_spec p r term cols sizes :
  graph_renderer p = Some r →
  _get_node_styling (G p) = Ok (cols, sizes) →
  highlight_nodes p term
  = Ok (set_color p r
          (highlighted (λ x, found (PyStr.lower term) (nx.attrs x.2))
             (nx.table (G p)) cols),
        hits (λ x, found (PyStr.lower term) (nx.attrs x.2)) (nx.table (G p))).
Proof.
  intros Hr Hst. unfold highlight_nodes. rewrite Hr, Hst. simpl.
  unfold _get_node_styling in Hst.
  pose proof (highlight_loop_spec (PyStr.lower term) _ [] _ _ Hst) as Hl.
  simpl in Hl. by rewrite Hl.
Qed.

Lemma reset_node_colors_spec p r cols sizes :
  graph_renderer p = Some r →
  _get_node_styling (G p) = Ok (cols, sizes) →
  reset_node_colors p = Ok (set_color p r cols).
Proof. intros Hr Hst. unfold reset_node_colors. by rewrite Hr, Hst. Qed.

(** What the user can do in the text-search panel. *)
Inductive action : Type :=
  | Search (search_term : string)
  | ResetView.

Definition act (p : t) (a : action) : result t :=
  match a with
  | Search term => r ← highlight_nodes p term; Ok r.1
  | ResetView => reset_node_colors p
  end.

Lemma act_spec p r a cols sizes :
  graph_renderer p = Some r →
  _get_node_styling (G p) = Ok (cols, sizes) →
  ∃ cs, act p a = Ok (set_color p r cs).
Proof.
  intros Hr Hst. destruct a as [term|]; simpl.
  - erewrite highlight_nodes_spec by done. simpl. eauto.
  - erewrite reset_node_colors_spec by done. eauto.
Qed.

(** C9.  On a plotter that shows a graph and whose node styling is
    defined, any sequence of searches (and resets) followed by
    [reset_node_colors] succeeds and leaves the colour column equal to the
    colour list [_get_node_styling] computes for the untouched graph; the
    graph, the payload and the radius column are unchanged. *)
Theorem reset_restores_type_styling (p : t) (r : Renderer)
    (actions : list action) (cols : list string) (sizes : list Z) :
  graph_renderer p = Some r →
  _get_node_styling (G p) = Ok (cols, sizes) →
  (p' ← for_each act actions p; reset_node_colors p')
  = Ok (set_color p r cols).
Proof.
  intros Hr Hst.
  assert (∃ cs, for_each act actions p = Ok (set_color p r cs)) as [cs ->].
  { assert (∀ q, G q = G p → graph_data q = graph_data p →
                 (∃ r', graph_renderer q = Some r' ∧ radius r' = radius r) →
                 ∃ cs, for_each act actions q = Ok (set_color p r cs)) as Hgen.
    { induction actions as [|a actions IH]; intros q HG Hgd (r' & Hr' & Hrad).
      - simpl. exists (color r'). f_equal. destruct q as [qd qg qr].
        simpl in *. subst. unfold set_color. simpl. by destruct r', r; simplify_eq/=.
      - simpl. destruct (act_spec q r' a cols sizes) as [cs' ->];
          [done|by rewrite HG|]. simpl.
        apply IH; simpl; [done|done|]. eexists. split; [done|]. done. }
    apply Hgen; eauto. }
  simpl. erewrite reset_node_colors_spec; [|done|done]. done.
Qed.


End HighlightFacts.

Section SearchFacts.
Context `{PyFloat}.
Import GraphPlotter OrderedDictFacts.





Lemma highlighted_ext hit hit' tbl cols :
  Forall (λ x, hit x = hit' x) tbl →
  highlighted hit tbl cols = highlighted hit' tbl cols ∧
  hits hit tbl = hits hit' tbl.
Proof.
  intros Hall. split.
  - revert cols. unfold highlighted.
    induction Hall as [|x tbl Hx _ IH]; intros [|c cols]; simpl; try done.
    by rewrite Hx, IH.
  - unfold hits. f_equal.
    induction Hall as [|x tbl Hx _ IH]; [done|].
    rewrite !filter_cons, Hx, IH. done.
Qed.



(** For any graph, built or not, the empty search returns the nodes with
    a value that is an instance of [str], [int] or [float]. *)
Lemma empty_search_isinstance (p : t) (r : Renderer) cols sizes :
  graph_renderer p = Some r →
  _get_node_styling (G p) = Ok (cols, sizes) →
  snd <$> highlight_nodes p EmptyString
  = Ok (hits (λ x, any_value isinstance_str_int_float (nx.attrs x.2))
          (nx.table (G p))).
Proof.
  intros Hr Hst.
  rewrite (highlight_nodes_spec p r EmptyString cols sizes) by done. simpl.
  f_equal.
  destruct (highlighted_ext (λ x, found EmptyString (nx.attrs x.2))
              (λ x, any_value isinstance_str_int_float (nx.attrs x.2))
              (nx.table (G p)) cols) as [_ ->]; [|done].
  apply Forall_forall. intros x _. apply found_empty_term.
Qed.

End SearchFacts.

(* ================================================================== *)
(** ** What the built graph contains *)

Section BuiltGraphFacts.
Context `{PyFloat}.
Import GraphPlotter OrderedDictFacts.
Implicit Types g : nx.DiGraph.

Lemma add_edges_snoc rs x g :
  add_edges (rs ++ [x]) g
  = nx.add_edge (start_node x.2) (end_node x.2) (edge_attr x.2) (add_edges rs g).
Proof. unfold add_edges. by rewrite fold_left_app. Qed.

(** *** Nodes *)

Lemma add_nodes_table ns g :
  NoDup (OrderedDict.keys ns) →
  (∀ n, n ∈ OrderedDict.keys ns → OrderedDict.get n (nx.table g) = None) →
  nx.table (add_nodes ns g)
  = nx.table g ++ map (λ x, (x.1, nx.fresh (node_props x.2))) ns.
Proof.
  unfold OrderedDict.keys. revert g.
  induction ns as [|[n info] ns IH]; intros g Hnd Hfresh; simpl.
  - by rewrite app_nil_r.
  - apply NoDup_cons in Hnd as [Hn Hnd].
    assert (nx.table (nx.add_node n (node_props info) g)
            = nx.table g ++ [(n, nx.fresh (node_props info))]) as Hstep.
    { unfold nx.add_node. rewrite Hfresh by (simpl; apply list_elem_of_here).
      simpl. apply set_fresh. apply Hfresh. simpl. apply list_elem_of_here. }
    fold (add_nodes ns (nx.add_node n (node_props info) g)).
    rewrite IH; [by rewrite Hstep, <- (assoc_L (++)) |done|].
    intros n' Hn'. rewrite get_add_node.
    rewrite decide_False by (by intros ->).
    apply Hfresh. simpl. by apply list_elem_of_further.
Qed.

(** With distinct ids, the node phase yields one fresh node per payload
    node, in payload order. *)
Lemma add_nodes_empty ns :
  NoDup (OrderedDict.keys ns) →
  nx.table (add_nodes ns nx.empty)
  = map (λ x, (x.1, nx.fresh (node_props x.2))) ns.
Proof. intros Hnd. by rewrite add_nodes_table. Qed.

Lemma get_add_nodes ns id info :
  NoDup (OrderedDict.keys ns) → (id, info) ∈ ns →
  OrderedDict.get id (nx.table (add_nodes ns nx.empty))
  = Some (nx.fresh (node_props info)).
Proof.
  intros Hnd Hin. rewrite add_nodes_empty by done.
  apply elem_get_NoDup.
  - unfold OrderedDict.keys in *. rewrite <- list_fmap_compose.
    by erewrite list_fmap_ext; [apply Hnd|].
  - apply (list_elem_of_fmap_2 (λ x, (x.1, nx.fresh (node_props x.2)))) in Hin.
    done.
Qed.

Lemma add_nodes_keys ns g n :
  is_Some (OrderedDict.get n (nx.table (add_nodes ns g))) →
  is_Some (OrderedDict.get n (nx.table g)) ∨ n ∈ OrderedDict.keys ns.
Proof.
  unfold OrderedDict.keys. revert g.
  induction ns as [|[n' info] ns IH]; intros g; simpl; [by left|].
  intros [Hg|Hin]%IH.
  - rewrite get_add_node in Hg. destruct (decide (n' = n)) as [->|Hne].
    + right. apply list_elem_of_here.
    + by left.
  - right. by apply list_elem_of_further.
Qed.

Lemma add_nodes_no_edges ns g :
  Forall (λ x, nx.succ x.2 = []) (nx.table g) →
  Forall (λ x, nx.succ x.2 = []) (nx.table (add_nodes ns g)).
Proof.
  revert g. induction ns as [|[n info] ns IH]; intros g Hg; simpl; [done|].
  apply IH. unfold nx.add_node.
  destruct (OrderedDict.get n (nx.table g)) as [e|] eqn:He; simpl.
  - apply Forall_set; [|done]. simpl.
    apply get_Some_elem in He. rewrite Forall_forall in Hg. apply (Hg _ He).
  - by apply Forall_set.
Qed.

Lemma edge_data_add_nodes ns u v :
  nx.edge_data (add_nodes ns nx.empty) u v = None.
Proof.
  unfold nx.edge_data.
  destruct (OrderedDict.get u _) as [e|] eqn:He; simpl; [|done].
  apply get_Some_elem in He.
  assert (Forall (λ x : string * nx.NodeEntry, nx.succ x.2 = [])
            (nx.table (add_nodes ns nx.empty))) as Hall
    by (apply add_nodes_no_edges; constructor).
  rewrite Forall_forall in Hall. specialize (Hall _ He). simpl in Hall.
  by rewrite Hall.
Qed.

(** *** Through the edge phase *)

Lemma attrs_add_edges rs g n a :
  nx.attrs <$> OrderedDict.get n (nx.table g) = Some a →
  nx.attrs <$> OrderedDict.get n (nx.table (add_edges rs g)) = Some a.
Proof.
  revert g. induction rs as [|[id r] rs IH]; intros g Hg; simpl; [done|].
  apply IH. by rewrite attrs_add_edge, Hg.
Qed.

Lemma edge_data_add_edges_mono rs g u v :
  is_Some (nx.edge_data g u v) → is_Some (nx.edge_data (add_edges rs g) u v).
Proof.
  revert g. induction rs as [|[id r] rs IH]; intros g Hg; simpl; [done|].
  apply IH. rewrite edge_data_add_edge. by destruct (decide _).
Qed.

(** Outside a set of ids [K], every node has no attributes. *)
Definition bare_outside (K : list string) g : Prop :=
  ∀ n a, nx.attrs <$> OrderedDict.get n (nx.table g) = Some a → n ∉ K → a = ∅.

Lemma add_edges_bare_outside K rs g :
  bare_outside K g → bare_outside K (add_edges rs g).
Proof.
  revert g. induction rs as [|[id r] rs IH]; intros g Hg; simpl; [done|].
  apply IH. intros n a. rewrite attrs_add_edge.
  destruct (nx.attrs <$> OrderedDict.get n (nx.table g)) as [a'|] eqn:Ha.
  - intros [= <-]. by apply Hg.
  - destruct (decide _); [|done]. by intros [= <-].
Qed.

Lemma add_nodes_bare_outside ns :
  bare_outside (OrderedDict.keys ns) (add_nodes ns nx.empty).
Proof.
  intros n a Ha Hn. exfalso.
  destruct (OrderedDict.get n _) as [e|] eqn:He; [|done].
  destruct (add_nodes_keys ns nx.empty n) as [[? [=]]|Hin]; [by rewrite He|done].
Qed.

(** Each relationship of the payload leaves its endpoints and its edge
    in the graph. *)
Lemma add_edges_present rs g id r :
  (id, r) ∈ rs →
  is_Some (nx.edge_data (add_edges rs g) (start_node r) (end_node r)) ∧
  ∀ n, n = start_node r ∨ n = end_node r →
       is_Some (nx.attrs <$> OrderedDict.get n (nx.table (add_edges rs g))).
Proof.
  revert g. induction rs as [|[id' r'] rs IH]; intros g Hin.
  - by apply elem_of_nil in Hin.
  - apply elem_of_cons in Hin as [[= <- <-]|Hin]; [|by apply IH].
    simpl. split.
    + apply edge_data_add_edges_mono. rewrite edge_data_add_edge.
      by rewrite decide_True.
    + intros n Hn.
      assert (is_Some (nx.attrs <$> OrderedDict.get n
                (nx.table (nx.add_edge (start_node r) (end_node r)
                             (edge_attr r) g)))) as [a Ha].
      { rewrite attrs_add_edge. destruct (nx.attrs <$> _); [done|].
        by rewrite decide_True. }
      erewrite attrs_add_edges; [|done]. done.
Qed.

(** [r] is the last relationship of [rs] from [u] to [v] *)
Definition last_between (u v : string) (rs : list (string * RelInfo))
    (r : RelInfo) : Prop :=
  ∃ pre id post, rs = pre ++ (id, r) :: post ∧
    start_node r = u ∧ end_node r = v ∧
    Forall (λ x, ¬ (start_node x.2 = u ∧ end_node x.2 = v)) post.

(** The edge between two nodes carries the type of the last relationship
    between them. *)
Lemma edge_type_add_edges rs g u v dd :
  nx.edge_data (add_edges rs g) u v = Some dd →
  (∃ r, last_between u v rs r ∧ dd !! "type" = Some (PStr (rel_type r))) ∨
  (Forall (λ x, ¬ (start_node x.2 = u ∧ end_node x.2 = v)) rs ∧
   nx.edge_data g u v = Some dd).
Proof.
  revert dd. induction rs as [|[id r] rs IH] using rev_ind; intros dd.
  - simpl. intros Hdd. right. by split.
  - rewrite add_edges_snoc, edge_data_add_edge. simpl.
    destruct (decide (u = start_node r ∧ v = end_node r)) as [[-> ->]|Hne].
    + intros [= <-]. left. exists r. split.
      * exists rs, id, []. by split_and!.
      * apply lookup_union_Some_l. unfold edge_attr. apply lookup_insert_eq.
    + intros [(r' & (pre & id' & post & -> & Hu & Hv & Hpost) & Hty)|[Hall Hg]]%IH.
      * left. exists r'. split; [|done].
        exists pre, id', (post ++ [(id, r)]). split_and!; try done.
        -- by rewrite <- (assoc_L (++)).
        -- apply Forall_app. split; [done|]. constructor; [|done].
           simpl. intros [? ?]. apply Hne. done.
      * right. split; [|done]. apply Forall_app. split; [done|].
        constructor; [|done]. simpl. intros [? ?]. apply Hne. done.
Qed.

End BuiltGraphFacts.

(* ================================================================== *)
(** ** Example payloads *)

Module Examples.

(** The examples contain no float and compare none: they are stated for a
    float implementation of which only the interface is visible. *)
Definition some_float : PyFloat.
Proof. exact IntegralFloat.integral_float. Qed.
#[export] Existing Instance some_float.

Definition node (ls : list string) (ps : list (string * PropertyValue))
  : NodeInfo :=
  {| labels := ls; properties := list_to_map ps |}.

Definition rel (ty src dst : string) : RelInfo :=
  {| rel_type := ty; rel_properties := Some ∅;
     start_node := src; end_node := dst |}.

(** one person who knows somebody the payload does not contain *)
Definition gd_dangling : GraphData :=
  {| nodes := [("a", node ["Person"] [("name", PStr "Ann")])];
     relationships := [("r1", rel "KNOWS" "a" "ghost")] |}.

(** a person who both acted in and directed the same movie *)
Definition gd_two_roles : GraphData :=
  {| nodes := [("p1", node ["Person"] [("name", PStr "Clint")]);
               ("m1", node ["Movie"] [("title", PStr "Unforgiven")])];
     relationships := [("r1", rel "ACTED_IN" "p1" "m1");
                       ("r2", rel "DIRECTED" "p1" "m1")] |}.

(** a movie that has a property named [type] *)
Definition gd_type_property : GraphData :=
  {| nodes := [("m1", node ["Movie"] [("title", PStr "Senna");
                                      ("type", PStr "documentary")])];
     relationships := [] |}.

(** two persons who know each other *)
Definition gd_friends : GraphData :=
  {| nodes := [("p1", node ["Person"] [("name", PStr "Ann")]);
               ("p2", node ["Person"] [("name", PStr "Bob")])];
     relationships := [("r1", rel "KNOWS" "p1" "p2")] |}.

(** two persons and a movie; only one of the persons acted in it *)
Definition gd_cast : GraphData :=
  {| nodes := [("p1", node ["Person"] [("name", PStr "Ann")]);
               ("p2", node ["Person"] [("name", PStr "Bob")]);
               ("m1", node ["Movie"] [("title", PStr "Heat");
                                      ("year", PInt 1995)])];
     relationships := [("r1", rel "ACTED_IN" "p1" "m1")] |}.

(** the plotter of [gd_cast] once its plot exists *)
Definition renderer_cast : Renderer :=
  {| color := ["#31a354"; "#31a354"; "#3182bd"]; radius := [8; 8; 10]%Z |}.

Definition plotter_cast : GraphPlotter.t :=
  {| GraphPlotter.graph_data := gd_cast;
     GraphPlotter.G :=
       nx.add_edge "p1" "m1" (<["type" := PStr "ACTED_IN"]> ∅)
         (nx.add_node "m1" (node_props (node ["Movie"] [("title", PStr "Heat");
                                                        ("year", PInt 1995)]))
            (nx.add_node "p2" (node_props (node ["Person"] [("name", PStr "Bob")]))
               (nx.add_node "p1" (node_props (node ["Person"] [("name", PStr "Ann")]))
                  nx.empty)));
     GraphPlotter.graph_renderer := Some renderer_cast |}.

End Examples.

(* ================================================================== *)
(** ** The graph store: dangling edges, multi-edges, node types *)

Section BuildTheorems.
Context `{PyFloat}.
Import GraphPlotter OrderedDictFacts.

(** C3 (as amended).  A payload whose property names clash with no
    keyword parameter always builds, dangling edges or not: for every
    relationship the edge is in the graph and both endpoints are nodes of
    the graph, and an endpoint that is not among the payload's node ids
    has been created silently, without any attribute. *)
Theorem dangling_edge_is_materialized (gd : GraphData) :
  keywords_free gd →
  ∃ g, _create_networkx_graph gd = Ok g ∧
    ∀ id r, (id, r) ∈ relationships gd →
      is_Some (nx.edge_data g (start_node r) (end_node r)) ∧
      ∀ n, n = start_node r ∨ n = end_node r →
        n ∈ nx.nodes g ∧
        (n ∉ OrderedDict.keys (nodes gd) → nx.node_data g n = Ok ∅).
Proof.
  intros Hfree.
  destruct (create_networkx_graph_spec gd) as [[_ Hb]|[Hn _]]; [|done].
  eexists. split; [done|]. intros id r Hin.
  destruct (add_edges_present _ (add_nodes (nodes gd) nx.empty) _ _ Hin)
    as [Hedge Hends].
  split; [done|]. intros n Hn. destruct (Hends n Hn) as [a Ha]. split.
  - apply get_is_Some_keys. by destruct (OrderedDict.get n _).
  - intros Hout. unfold nx.node_data. rewrite Ha. simpl. f_equal.
    eapply (add_edges_bare_outside (OrderedDict.keys (nodes gd))); [|done..].
    apply add_nodes_bare_outside.
Qed.

(** C4 (as amended).  A payload with distinct node ids and no clashing
    property name builds; every payload node is retrievable with its
    attributes; the endpoint pair of every relationship is an edge; and
    the graph has one edge per ordered pair, which carries the type of
    the last relationship between that pair (relationship ids are not
    stored, parallel relationships collapse). *)
Theorem build_keeps_nodes_and_last_edge (gd : GraphData) :
  NoDup (OrderedDict.keys (nodes gd)) →
  keywords_free gd →
  ∃ g, _create_networkx_graph gd = Ok g ∧
    (∀ id info, (id, info) ∈ nodes gd →
       nx.node_data g id = Ok (node_props info)) ∧
    (∀ id r, (id, r) ∈ relationships gd →
       is_Some (nx.edge_data g (start_node r) (end_node r))) ∧
    (∀ u v dd, nx.edge_data g u v = Some dd →
       ∃ r, last_between u v (relationships gd) r ∧
            dd !! "type" = Some (PStr (rel_type r))).
Proof.
  intros Hnd Hfree.
  destruct (create_networkx_graph_spec gd) as [[_ Hb]|[Hn _]]; [|done].
  eexists. split; [done|]. split_and!.
  - intros id info Hin. unfold nx.node_data.
    erewrite attrs_add_edges; [done|]. by rewrite (get_add_nodes _ id info).
  - intros id r Hin. by eapply add_edges_present.
  - intros u v dd [Hr|[_ Hnone]]%edge_type_add_edges; [done|].
    by rewrite edge_data_add_nodes in Hnone.
Qed.

(** The type attribute of a built node is the node's [type] property
    when it has one, and its primary label otherwise. *)
Lemma built_node_type (gd : GraphData) g id info :
  NoDup (OrderedDict.keys (nodes gd)) →
  _create_networkx_graph gd = Ok g →
  (id, info) ∈ nodes gd →
  get_type <$> nx.node_data g id
  = Ok (default (PStr (primary_label info)) (properties info !! "type")).
Proof.
  intros Hnd Hb Hin.
  destruct (create_networkx_graph_spec gd) as [[_ Hb']|[_ Hr]]; [|congruence].
  rewrite Hb' in Hb. injection Hb as <-. unfold nx.node_data.
  erewrite attrs_add_edges; [|by rewrite (get_add_nodes _ id info)].
  simpl. by rewrite get_type_node_props.
Qed.

End BuildTheorems.

Section BuildExamples.
Import Examples GraphPlotter.

Lemma keywords_free_dangling : keywords_free gd_dangling.
Proof. split; repeat constructor. Defined.

Lemma dangling_edge_is_materialized_witness :
  keywords_free gd_dangling ∧
  ∃ g, _create_networkx_graph gd_dangling = Ok g ∧
    ∀ id r, (id, r) ∈ relationships gd_dangling →
      is_Some (nx.edge_data g (start_node r) (end_node r)) ∧
      ∀ n, n = start_node r ∨ n = end_node r →
        n ∈ nx.nodes g ∧
        (n ∉ OrderedDict.keys (nodes gd_dangling) → nx.node_data g n = Ok ∅).
Proof.
  split; [exact keywords_free_dangling|].
  apply (dangling_edge_is_materialized gd_dangling), keywords_free_dangling.
Defined.

(** C3, counterexample.  The relationship [r1] of [gd_dangling] ends at
    ["ghost"], which is not a node id of the payload; the build raises
    nothing and returns a graph in which ["ghost"] is a node without
    attributes and the edge from ["a"] to it is present. *)
Lemma dangling_edge_builds :
  (∃ id r, (id, r) ∈ relationships gd_dangling ∧
           end_node r ∉ OrderedDict.keys (nodes gd_dangling)) ∧
  (λ g, (nx.nodes g, nx.edges g, map_to_list <$> nx.node_data g "ghost"))
    <$> _create_networkx_graph gd_dangling
  = Ok (["a"; "ghost"], [("a", "ghost")], Ok []).
Proof.
  split; [|by vm_compute].
  exists "r1", (rel "KNOWS" "a" "ghost"). split; [apply list_elem_of_here|].
  simpl. by intros [=]%list_elem_of_singleton.
Qed.

Lemma NoDup_two_roles : NoDup (OrderedDict.keys (nodes gd_two_roles)).
Proof. apply (bool_decide_unpack _). by vm_compute. Defined.

Lemma keywords_free_two_roles : keywords_free gd_two_roles.
Proof. split; repeat constructor. Defined.

Lemma build_keeps_nodes_and_last_edge_witness :
  NoDup (OrderedDict.keys (nodes gd_two_roles)) ∧
  keywords_free gd_two_roles ∧
  ∃ g, _create_networkx_graph gd_two_roles = Ok g ∧
    (∀ id info, (id, info) ∈ nodes gd_two_roles →
       nx.node_data g id = Ok (node_props info)) ∧
    (∀ id r, (id, r) ∈ relationships gd_two_roles →
       is_Some (nx.edge_data g (start_node r) (end_node r))) ∧
    (∀ u v dd, nx.edge_data g u v = Some dd →
       ∃ r, last_between u v (relationships gd_two_roles) r ∧
            dd !! "type" = Some (PStr (rel_type r))).
Proof.
  split; [exact NoDup_two_roles|]. split; [exact keywords_free_two_roles|].
  apply (build_keeps_nodes_and_last_edge gd_two_roles).
  - exact NoDup_two_roles.
  - exact keywords_free_two_roles.
Defined.

(** C4, counterexample.  [gd_two_roles] is a valid payload with two
    relationships from ["p1"] to ["m1"], of ids [r1], [r2] and types
    [ACTED_IN], [DIRECTED].  The built graph has a single edge, of type
    [DIRECTED]: the relationship of type [ACTED_IN] cannot be retrieved. *)
Lemma parallel_relationships_collapse :
  NoDup (OrderedDict.keys (nodes gd_two_roles)) ∧
  keywords_free gd_two_roles ∧
  OrderedDict.keys (relationships gd_two_roles) = ["r1"; "r2"] ∧
  (λ g, map (λ x, (x.1.1, x.1.2, x.2 !! "type")) (nx.edges_data g))
    <$> _create_networkx_graph gd_two_roles
  = Ok [("p1", "m1", Some (PStr "DIRECTED"))].
Proof.
  split; [exact NoDup_two_roles|]. split; [exact keywords_free_two_roles|].
  by vm_compute.
Qed.

(** C5, the failing input.  The movie ["m1"] of [gd_type_property] has
    the primary label [Movie] and a property [type = documentary].  In the
    built graph its type is [documentary], and [_get_node_styling] gives it
    the colour of an unknown type instead of the colour of a movie. *)
Lemma type_property_overrides_label :
  primary_label <$> OrderedDict.get "m1" (nodes gd_type_property)
  = Some "Movie" ∧
  (g ← _create_networkx_graph gd_type_property;
   ty ← get_type <$> nx.node_data g "m1";
   styling ← _get_node_styling g;
   Ok (ty, styling))
  = Ok (PStr "documentary", (["#756bb1"], [5%Z])) ∧
  node_style (PStr "Movie") = Ok ("#3182bd", 10%Z).
Proof. by vm_compute. Qed.

End BuildExamples.

Section SearchExamples.
Import Examples GraphPlotter.

Lemma reset_restores_type_styling_witness :
  graph_renderer plotter_cast = Some renderer_cast ∧
  _get_node_styling (G plotter_cast)
  = Ok (["#31a354"; "#31a354"; "#3182bd"], [8; 8; 10]%Z) ∧
  (p' ← for_each act [Search "ann"; ResetView; Search "1995"] plotter_cast;
   reset_node_colors p')
  = Ok (set_color plotter_cast renderer_cast ["#31a354"; "#31a354"; "#3182bd"]).
Proof.
  split; [reflexivity|]. split; [by vm_compute|].
  apply (reset_restores_type_styling plotter_cast renderer_cast _ _
           [8; 8; 10]%Z); [reflexivity | by vm_compute].
Defined.


(** The empty search on [gd_cast] returns all three nodes. *)
Example empty_search_cast :
  snd <$> highlight_nodes plotter_cast EmptyString = Ok ["p1"; "p2"; "m1"].
Proof. by vm_compute. Qed.

End SearchExamples.

(* ================================================================== *)
(** ** The in-memory pattern search (Project files/app.py) *)

Section PatternFacts.
Context `{PyFloat}.
Import App.

(** The first list is made of the nodes whose type is [type_a]. *)
Lemma find_matching_nodes_a type_a type_b ns :
  (find_matching_nodes type_a type_b ns).1
  = (filter (λ x, primary_label x.2 = type_a) ns).*1.
Proof.
  induction ns as [|[n info] ns IH]; [done|].
  simpl. destruct (find_matching_nodes type_a type_b ns) as [a b].
  rewrite filter_cons. simpl in *.
  destruct (decide (primary_label info = type_a)); simpl; [by rewrite IH|].
  by destruct (decide (primary_label info = type_b)).
Qed.

(** The second list is made of the nodes whose type is [type_b] and not
    [type_a]: the second test is an [elif]. *)
Lemma find_matching_nodes_b type_a type_b ns :
  (find_matching_nodes type_a type_b ns).2
  = (filter (λ x, primary_label x.2 ≠ type_a ∧ primary_label x.2 = type_b) ns).*1.
Proof.
  induction ns as [|[n info] ns IH]; [done|].
  simpl. destruct (find_matching_nodes type_a type_b ns) as [a b].
  rewrite filter_cons. simpl in *.
  destruct (decide (primary_label info = type_a)) as [Ha|Ha]; simpl.
  - rewrite decide_False by (by intros [? _]). done.
  - destruct (decide (primary_label info = type_b)) as [Hb|Hb]; simpl.
    + rewrite decide_True by done. simpl. by rewrite IH.
    + rewrite decide_False by (by intros [_ ?]). done.
Qed.

(** For two different types the two lists are the nodes of type
    [type_a] and the nodes of type [type_b]. *)
Lemma find_matching_nodes_distinct type_a type_b ns :
  type_a ≠ type_b →
  (find_matching_nodes type_a type_b ns).2
  = (filter (λ x, primary_label x.2 = type_b) ns).*1.
Proof.
  intros Hne. rewrite find_matching_nodes_b. f_equal.
  apply list_filter_iff. intros x. split; [by intros [_ ?]|].
  intros Hb. split; [congruence|done].
Qed.

(** A relationship is kept exactly when its type is the queried one, its
    source is in the first list and its target in the second. *)
Lemma find_matching_relationships_spec q a b rs s e r :
  (s, e, r) ∈ find_matching_relationships q a b rs ↔
  (∃ id, (id, r) ∈ rs) ∧ s = start_node r ∧ e = end_node r ∧
  rel_type r = q ∧ start_node r ∈ a ∧ end_node r ∈ b.
Proof.
  unfold find_matching_relationships. rewrite list_elem_of_omap. split.
  - intros ([id r'] & Hin & Hsome).
    destruct (decide (rel_type r' = q)) as [Hq|]; [|done].
    destruct (bool_decide (start_node r' ∈ a)) eqn:Ha; [|done].
    destruct (bool_decide (end_node r' ∈ b)) eqn:Hb; [|done].
    simpl in Hsome. injection Hsome as <- <- <-.
    apply bool_decide_eq_true in Ha, Hb. split_and!; eauto.
  - intros ([id Hin] & -> & -> & Hq & Ha & Hb). exists (id, r).
    split; [done|]. rewrite decide_True by done.
    by rewrite !bool_decide_eq_true_2.
Qed.

(** When both ends of the pattern have the same type, the second list is
    empty and no relationship of the payload is ever a match. *)
Lemma same_type_pattern_never_matches t q (gd : GraphData) :
  (find_matching_nodes t t (nodes gd)).2 = [] ∧
  ∀ a, find_matching_relationships q a
         (find_matching_nodes t t (nodes gd)).2 (relationships gd) = [].
Proof.
  assert ((find_matching_nodes t t (nodes gd)).2 = []) as Hb.
  { rewrite find_matching_nodes_b.
    induction (nodes gd) as [|x ns IH]; [done|].
    rewrite filter_cons. by rewrite decide_False by (by intros [? ?]). }
  split; [done|]. intros a. rewrite Hb.
  apply elem_of_nil_inv. intros [[s e] r] Hin.
  apply find_matching_relationships_spec in Hin as (_ & _ & _ & _ & _ & Hin).
  by apply elem_of_nil in Hin.
Qed.

(** The pattern graph gets every node of the two lists, whether or not a
    matching relationship touches it. *)
Lemma pattern_node_ids_spec a b n :
  n ∈ pattern_node_ids a b ↔ n ∈ a ∨ n ∈ b.
Proof.
  unfold pattern_node_ids.
  rewrite elem_of_elements, elem_of_list_to_set, elem_of_app. done.
Qed.

End PatternFacts.

Section PatternExamples.
Import Examples App.

(** C1, the failing input.  In [gd_friends] the relationship [r1] has type
    [KNOWS] and goes from the person ["p1"] to the person ["p2"].  The
    search for Person-[KNOWS]->Person puts both persons in the first list
    and nobody in the second, and finds no relationship: the pattern graph
    has the two nodes and no edge. *)
Lemma same_type_pattern_finds_nothing :
  map (λ x, (x.1, primary_label x.2)) (nodes gd_friends)
  = [("p1", "Person"); ("p2", "Person")] ∧
  map (λ x, (rel_type x.2, start_node x.2, end_node x.2)) (relationships gd_friends)
  = [("KNOWS", "p1", "p2")] ∧
  (λ r, (matching_nodes_a r, matching_nodes_b r,
         length (matching_relationships r),
         nx.nodes (pattern_G r), nx.edges (pattern_G r)))
    <$> create_pattern_visualization gd_friends "Person" "KNOWS" "Person"
  = Ok (["p1"; "p2"], [], 0, ["p1"; "p2"], []).
Proof. by vm_compute. Qed.

(** C2, the failing input.  In [gd_cast] only ["p1"] acted in ["m1"].  The
    search for Person-[ACTED_IN]->Movie finds the one triple, but the
    pattern graph also contains the person ["p2"], who is an endpoint of no
    matching triple. *)
Lemma pattern_graph_keeps_unmatched_nodes :
  (λ r, (map (λ x, (x.1.1, x.1.2)) (matching_relationships r),
         nx.edges (pattern_G r),
         bool_decide ("p2" ∈ nx.nodes (pattern_G r)),
         length (nx.nodes (pattern_G r))))
    <$> create_pattern_visualization gd_cast "Person" "ACTED_IN" "Movie"
  = Ok ([("p1", "m1")], [("p1", "m1")], true, 3).
Proof. by vm_compute. Qed.

End PatternExamples.

(* ================================================================== *)
(** ** The property filter of the pattern view (search_function.py) *)

Section FilterFacts.
Context `{PyFloat}.
Import PatternPropertyExplorer.

Lemma partition_contains sep s :
  PyStr.contains sep s = true → is_Some (PyStr.partition sep s).
Proof.
  induction s as [|c s IH].
  - simpl. rewrite orb_false_r. intros ->. eauto.
  - cbn [PyStr.contains PyStr.partition].
    destruct (String.prefix sep (String c s)); [eauto|]. simpl.
    intros [[b a] ->]%IH. eauto.
Qed.

(** [s.split(sep)[1]] exists when [sep in s]. *)
Lemma split_1_contains sep s :
  PyStr.contains sep s = true → ∃ field, PyStr.split_1 sep s = Ok field.
Proof.
  intros [[b a] Hp]%partition_contains. unfold PyStr.split_1. rewrite Hp.
  destruct (PyStr.partition sep a) as [[f ?]|]; eauto.
Qed.

(** [_evaluate_filter] never raises. *)
Lemma _evaluate_filter_total v c : ∃ b, _evaluate_filter v c = Ok b.
Proof.
  unfold _evaluate_filter.
  destruct (PyStr.is_empty c); [eauto|].
  destruct (PyStr.contains "contains" _) eqn:Hc.
  { apply split_1_contains in Hc as [f ->]. simpl. eauto. }
  destruct (_ || _); [eauto|].
  match goal with |- ∃ b, match ?r with _ => _ end = _ => destruct r as [[?|]|] end;
    eauto.
Qed.

(** every node of the pattern graph is in the pattern data *)
Definition nodes_known (e : t) : Prop :=
  Forall (λ n, is_Some (OrderedDict.get n (nodes (pattern_data e))))
    (nx.nodes (pattern_graph e)).

Lemma matches_cases e f n :
  (is_Some (OrderedDict.get n (nodes (pattern_data e))) ∧
   ∃ b, matches e f n = Ok b) ∨
  (OrderedDict.get n (nodes (pattern_data e)) = None ∧
   matches e f n = Raise KeyError).
Proof.
  unfold matches.
  destruct (OrderedDict.get n _) as [info|]; simpl; [left|by right].
  split; [eauto|]. destruct (_ && _); [|eauto].
  apply _evaluate_filter_total.
Qed.

(** The loop of [_apply_filter] raises only [KeyError], and whether it
    does depends on the graph and the data, not on the filter. *)
Lemma filter_loop_cases e f ns :
  (Forall (λ n, is_Some (OrderedDict.get n (nodes (pattern_data e)))) ns ∧
   ∃ r, filter_loop e f ns = Ok r) ∨
  (¬ Forall (λ n, is_Some (OrderedDict.get n (nodes (pattern_data e)))) ns ∧
   filter_loop e f ns = Raise KeyError).
Proof.
  induction ns as [|n ns IH]; simpl.
  - left. split; [constructor|eauto].
  - destruct (matches_cases e f n) as [[Hn [b ->]]|[Hn ->]]; simpl.
    + destruct IH as [[Hns [[cs k] ->]]|[Hns ->]]; simpl.
      * left. split; [by constructor|]. destruct b; eauto.
      * right. split; [|done]. by intros [_ ?]%Forall_cons.
    + right. split; [|done]. intros [[? Hs] _]%Forall_cons. congruence.
Qed.

Lemma matches_data e e' f n :
  pattern_data e = pattern_data e' → matches e f n = matches e' f n.
Proof. unfold matches. by intros ->. Qed.

Lemma filter_loop_data e e' f ns :
  pattern_data e = pattern_data e' → filter_loop e f ns = filter_loop e' f ns.
Proof.
  intros Hd. induction ns as [|n ns IH]; simpl; [done|].
  by rewrite (matches_data e e' f n Hd), IH.
Qed.

(** two explorers that differ at most in the colour column *)
Definition same_view (e e' : t) : Prop :=
  pattern_data e = pattern_data e' ∧ pattern_graph e = pattern_graph e' ∧
  radius <$> graph_renderer e = radius <$> graph_renderer e'.

(** [_apply_filter] does not read the colour column. *)
Lemma _apply_filter_same_view e e' f :
  same_view e e' → _apply_filter e f = _apply_filter e' f.
Proof.
  intros (Hd & Hg & Hr). unfold _apply_filter.
  rewrite (filter_loop_data e e' f _ Hd), Hg, Hd.
  destruct (filter_loop e' f _) as [[cs k]|]; simpl; [|done].
  destruct (graph_renderer e) as [r|], (graph_renderer e') as [r'|];
    simpl in Hr; try done. by injection Hr as ->.
Qed.

Lemma _apply_filter_view e f e' k :
  _apply_filter e f = Ok (e', k) → same_view e' e.
Proof.
  unfold _apply_filter.
  destruct (filter_loop e f _) as [[cs k']|]; simpl; [|done].
  intros [= <- _]. split_and!; simpl; try done.
  by destruct (graph_renderer e).
Qed.

Lemma _apply_filter_raise e f f' x :
  _apply_filter e f = Raise x → _apply_filter e f' = Raise x.
Proof.
  unfold _apply_filter.
  destruct (filter_loop_cases e f (nx.nodes (pattern_graph e)))
    as [[_ [[cs k] ->]]|[Hn ->]]; simpl; [done|].
  intros [= <-].
  destruct (filter_loop_cases e f' (nx.nodes (pattern_graph e)))
    as [[Hall _]|[_ ->]]; [done|done].
Qed.

(** After any sequence of filters, the view is the one the last filter
    alone produces. *)
Lemma apply_all_last e k fs f :
  apply_all e k (fs ++ [f]) = _apply_filter e f.
Proof.
  revert e k. induction fs as [|f1 fs IH]; intros e k; simpl.
  - by destruct (_apply_filter e f) as [[e' k']|].
  - destruct (_apply_filter e f1) as [[e1 k1]|x] eqn:H1; simpl.
    + rewrite IH. apply _apply_filter_same_view.
      by eapply _apply_filter_view.
    + symmetry. by eapply _apply_filter_raise.
Qed.

(** C6 (as amended).  Filters do not compose: applying [f1] and then [f2]
    gives exactly the colours and the match count of [f2] applied alone,
    and applying [f2] and then [f1] gives those of [f1] alone.  The final
    state is that of the last filter, whatever was applied before. *)
Theorem last_filter_wins (e : t) (k : nat) (f1 f2 : Filter) :
  apply_all e k [f1; f2] = _apply_filter e f2 ∧
  apply_all e k [f2; f1] = _apply_filter e f1.
Proof. split; [apply (apply_all_last e k [f1]) | apply (apply_all_last e k [f2])]. Qed.

End FilterFacts.

Section FilterExamples.
Import Examples PatternPropertyExplorer.

(** the pattern view of [gd_cast] *)
Definition explorer_cast : t :=
  {| pattern_data := gd_cast;
     pattern_graph := GraphPlotter.G plotter_cast;
     graph_renderer :=
       Some {| color := ["#FFD700"; "#FFD700"; "#FF6B6B"];
               radius := [15; 15; 15]%Z |} |}.

Definition persons_named_ann : Filter :=
  {| node_type := "Person"; property_name := "name";
     filter_condition := "contains ann" |}.

Definition movies_titled_heat : Filter :=
  {| node_type := "Movie"; property_name := "title";
     filter_condition := "contains heat" |}.

(** the colour column and the match count after a sequence of filters *)
Definition view (r : result (t * nat)) : result (option (list string) * nat) :=
  (λ x, (color <$> graph_renderer x.1, x.2)) <$> r.

(** C6, counterexample.  On the pattern view of [gd_cast], the person
    filter followed by the movie filter leaves the movie gold; the movie
    filter followed by the person filter leaves the first person gold.
    The two orders give different results (and neither is the
    intersection, which is empty). *)
Lemma filter_order_matters :
  view (apply_all explorer_cast 0 [persons_named_ann; movies_titled_heat])
  = Ok (Some ["#CCCCCC"; "#CCCCCC"; "#FFD700"], 1) ∧
  view (apply_all explorer_cast 0 [movies_titled_heat; persons_named_ann])
  = Ok (Some ["#FFD700"; "#CCCCCC"; "#CCCCCC"], 1) ∧
  apply_all explorer_cast 0 [persons_named_ann; movies_titled_heat]
  ≠ apply_all explorer_cast 0 [movies_titled_heat; persons_named_ann].
Proof.
  assert (view (apply_all explorer_cast 0 [persons_named_ann; movies_titled_heat])
          = Ok (Some ["#CCCCCC"; "#CCCCCC"; "#FFD700"], 1)) as H12
    by (by vm_compute).
  assert (view (apply_all explorer_cast 0 [movies_titled_heat; persons_named_ann])
          = Ok (Some ["#FFD700"; "#CCCCCC"; "#CCCCCC"], 1)) as H21
    by (by vm_compute).
  split; [done|]. split; [done|].
  intros Heq. rewrite Heq, H21 in H12. discriminate.
Qed.

End FilterExamples.

(* ================================================================== *)
(** ** The conditions [>= t] and [<= t] of the filter language *)

Section InclusiveComparisonFacts.
Context `{PyFloat}.
Import PatternPropertyExplorer.

(** What [_evaluate_filter] compares the value with in its equality
    branch: the condition without its [=] signs, stripped of white space
    and quotes. *)
Definition compare_literal (filter_condition : string) : string :=
  PyStr.strip_chars quote_chars
    (PyStr.strip
       (PyStr.replace "=" EmptyString
          (PyStr.replace "==" EmptyString filter_condition))).

(** [int], [float] and [bool] values *)
Definition is_number (v : PropertyValue) : bool :=
  match v with
  | PInt _ | PFloat _ | PBool _ => true
  | _ => false
  end.

Lemma eqb_head_ne a b s t : a ≠ b → String.eqb (String a s) (String b t) = false.
Proof. intros Hne. simpl. by apply Ascii.eqb_neq in Hne as ->. Qed.

Lemma number_head_lower c :
  (PyStr.is_digit c || PyStr.mem_char c "-inTF") = true →
  PyStr.lower_char c ≠ ">"%char ∧ PyStr.lower_char c ≠ "<"%char.
Proof. destruct c as [[] [] [] [] [] [] [] []]; try done. Qed.

(** The text of a number starts with a digit, a minus sign or a letter. *)
Lemma py_str_number_head v :
  is_number v = true →
  ∃ c r, py_str v = String c r ∧
         (PyStr.is_digit c || PyStr.mem_char c "-inTF") = true.
Proof.
  destruct v as [|b|n|x| |]; try done; intros _; simpl.
  - destruct b; eauto.
  - destruct (PyStrFacts.of_Z_head n) as (c & r & -> & Hc).
    exists c, r. split; [done|].
    destruct (PyStr.is_digit c); [done|]. simpl in *.
    by destruct (Ascii.eqb c "-").
  - destruct (float_str_start x) as (c & r & -> & Hc).
    exists c, r. split; [done|].
    destruct (PyStr.is_digit c); [done|]. simpl in *.
    destruct (Ascii.eqb c "-"); [done|].
    destruct (Ascii.eqb c "i"); [done|].
    by destruct (Ascii.eqb c "n").
Qed.

(** The literal of a condition that starts with [>=] or [<=] starts
    with [>] or [<]. *)
Lemma compare_literal_head op rest :
  op = ">"%char ∨ op = "<"%char →
  ∃ literal, compare_literal (String op (String "=" rest)) = String op literal.
Proof.
  intros [-> | ->]; unfold compare_literal, PyStr.replace; simpl;
    unfold PyStr.strip_chars, PyStr.strip;
    rewrite PyStrFacts.strip_by_keeps by done;
    rewrite PyStrFacts.strip_by_keeps by done; eauto.
Qed.

(** C10.  For every value and every condition that, once stripped and
    lower-cased, reads [>=] or [<=] followed by a text without the word
    [contains]: [_evaluate_filter] takes the equality branch, because the
    condition contains [=]; it returns whether the lower-cased text of the
    value equals the lower-cased leftover literal, which starts with [>] or
    [<]; no float is compared.  Hence the result is [False] for every
    number, also for one equal to the threshold. *)
Theorem inclusive_condition_compares_text (v : PropertyValue) (cond : string)
    (op : ascii) (rest : string) :
  op = ">"%char ∨ op = "<"%char →
  PyStr.lower (PyStr.strip cond) = String op (String "=" rest) →
  PyStr.contains "contains" rest = false →
  ∃ literal,
    compare_literal (PyStr.lower (PyStr.strip cond)) = String op literal ∧
    _evaluate_filter v cond
    = Ok (String.eqb (PyStr.lower (py_str v)) (PyStr.lower (String op literal))) ∧
    (is_number v = true → _evaluate_filter v cond = Ok false).
Proof.
  intros Hop Hnorm Hrest.
  destruct (compare_literal_head op rest Hop) as [literal Hlit].
  exists literal. rewrite Hnorm. split; [done|].
  assert (_evaluate_filter v cond
          = Ok (String.eqb (PyStr.lower (py_str v))
                  (PyStr.lower (String op literal)))) as Heval.
  { unfold _evaluate_filter.
    assert (PyStr.is_empty cond = false) as -> by (by destruct cond).
    rewrite Hnorm.
    assert (PyStr.contains "contains" (String op (String "=" rest)) = false) as ->
      by (by destruct Hop as [-> | ->]; simpl).
    assert (PyStr.startswith "==" (String op (String "=" rest))
            || PyStr.contains "=" (String op (String "=" rest)) = true) as ->
      by (destruct Hop as [-> | ->]; simpl; by destruct rest).
    fold (compare_literal (String op (String "=" rest))). rewrite Hlit.
    assert (PyStr.isdigit (String op literal) = false) as ->
      by (by destruct Hop as [-> | ->]).
    done. }
  split; [done|]. intros Hnum. rewrite Heval. f_equal.
  destruct (py_str_number_head v Hnum) as (c & r & -> & Hc).
  apply number_head_lower in Hc as [Hgt Hlt]. simpl.
  destruct Hop as [-> | ->]; by apply eqb_head_ne.
Qed.

Lemma contains_prefix sub s :
  String.prefix sub s = true → PyStr.contains sub s = true.
Proof. destruct s; simpl; by intros ->. Qed.

Lemma contains_longer c sub s :
  PyStr.contains (String c sub) s = true → PyStr.contains (String c EmptyString) s = true.
Proof.
  induction s as [|d s IH]; [done|].
  cbn [PyStr.contains]. intros [Hp|Hc]%orb_prop.
  - simpl in *. destruct (ascii_dec c d); [|done]. by destruct s.
  - rewrite (IH Hc). apply orb_true_r.
Qed.

(** [float(s)] rejects a text that starts with [=]. *)
Lemma float_of_text_equals_sign s :
  float_of_text (String "=" s) = Raise ValueError.
Proof.
  unfold float_of_text. destruct (float_of_str _) as [x|] eqn:Hx; [|done].
  apply float_of_str_start in Hx as (c & r & Hl & Hc).
  simpl in Hl. injection Hl as <- _. done.
Qed.

(** [parse_filter_condition] (app.py) does not reach its equality branch
    on such a condition, which needs [==]; it reaches the numeric branch,
    where the test for [>] (or [<]) comes before the unreachable tests for
    [>=] and [<=], and the threshold text, starting with [=], is no
    number.  The result is [False] for every value. *)
Lemma parse_inclusive_condition_never_matches (v : PropertyValue)
    (cond : string) (op : ascii) (rest : string) :
  op = ">"%char ∨ op = "<"%char →
  PyStr.lower (PyStr.strip cond) = String op (String "=" rest) →
  PyStr.contains "contains" rest = false →
  PyStr.contains "=" rest = false →
  PyStr.contains ">" rest = false →
  App.parse_filter_condition v cond = Ok false.
Proof.
  intros Hop Hnorm Hword Heq Hgt. unfold App.parse_filter_condition.
  rewrite Hnorm.
  assert (String.prefix "=" rest = false) as Hpre.
  { destruct (String.prefix "=" rest) eqn:Hp; [|done].
    apply contains_prefix in Hp. congruence. }
  assert (PyStr.contains "==" rest = false) as Heq2.
  { destruct (PyStr.contains "==" rest) eqn:Hc; [|done].
    apply contains_longer in Hc. congruence. }
  assert (PyStr.contains "contains" (String op (String "=" rest)) = false) as ->
    by (by destruct Hop as [-> | ->]; simpl).
  assert (PyStr.contains "==" (String op (String "=" rest)) = false) as ->.
  { destruct Hop as [-> | ->]; cbn [PyStr.contains]; rewrite Heq2; simpl;
      by rewrite Hpre. }
  assert (∀ sep : ascii, sep = op →
            ∃ field, PyStr.split_1 (String sep EmptyString)
                       (String op (String "=" rest))
                     = Ok (String "=" field)) as Hsplit.
  { intros sep ->. unfold PyStr.split_1.
    assert (PyStr.partition (String op EmptyString) (String op (String "=" rest))
            = Some (EmptyString, String "=" rest)) as ->.
    { simpl. destruct (ascii_dec op op); [|done]. by destruct rest. }
    assert (String.prefix (String op EmptyString) (String "=" rest) = false) as Hp
      by (by destruct Hop as [-> | ->]).
    cbn [PyStr.partition]. rewrite Hp.
    destruct (PyStr.partition _ rest) as [[b a]|]; eauto. }
  assert (∀ field, float_of_text (PyStr.strip (String "=" field))
                   = Raise ValueError) as Hfloat.
  { intros field. unfold PyStr.strip.
    rewrite PyStrFacts.strip_by_keeps by done.
    apply float_of_text_equals_sign. }
  destruct Hop as [-> | ->].
  - assert (PyStr.contains ">" (String ">" (String "=" rest)) = true) as ->
      by (simpl; by destruct rest).
    destruct (Hsplit ">"%char eq_refl) as [field ->].
    cbn [mbind result_bind]. rewrite Hfloat.
    by destruct (py_float v).
  - assert (PyStr.contains ">" (String "<" (String "=" rest)) = false) as ->
      by (by simpl).
    assert (PyStr.contains "<" (String "<" (String "=" rest)) = true) as ->
      by (simpl; by destruct rest).
    destruct (Hsplit "<"%char eq_refl) as [field ->].
    cbn [mbind result_bind]. rewrite Hfloat.
    by destruct (py_float v).
Qed.

End InclusiveComparisonFacts.

Section InclusiveComparisonExamples.
Import Examples PatternPropertyExplorer.

Lemma inclusive_condition_compares_text_witness :
  PyStr.lower (PyStr.strip ">= 1990") = String ">" (String "=" " 1990") ∧
  PyStr.contains "contains" " 1990" = false ∧
  ∃ literal,
    compare_literal (PyStr.lower (PyStr.strip ">= 1990")) = String ">" literal ∧
    _evaluate_filter (PInt 1990) ">= 1990"
    = Ok (String.eqb (PyStr.lower (py_str (PInt 1990)))
            (PyStr.lower (String ">" literal))) ∧
    (is_number (PInt 1990) = true →
     _evaluate_filter (PInt 1990) ">= 1990" = Ok false).
Proof.
  split; [reflexivity|]. split; [reflexivity|].
  apply (inclusive_condition_compares_text (PInt 1990) ">= 1990" ">" " 1990");
    [by left | reflexivity | reflexivity].
Defined.

(** The year 1990 does not pass [>= 1990]; the text [> 1990] does. *)
Example inclusive_condition_1990 :
  _evaluate_filter (PInt 1990) ">= 1990" = Ok false ∧
  _evaluate_filter (PStr "> 1990") ">= 1990" = Ok true ∧
  App.parse_filter_condition (PInt 1990) ">= 1990" = Ok false.
Proof.
  split; [by vm_compute|]. split; [by vm_compute|].
  apply (parse_inclusive_condition_never_matches _ _ ">" " 1990");
    [by left | reflexivity..].
Qed.

End InclusiveComparisonExamples.

(* ================================================================== *)
(** ** The node set of the pattern graph *)

Section PatternGraphFacts.
Context `{PyFloat}.
Import App OrderedDictFacts.

(** A loop that succeeds establishes, for the whole list, whatever each
    successful iteration extends from a prefix to the next. *)
Lemma for_each_invariant {A S} (P : list A → S → Prop)
    (f : S → A → result S) xs s0 s' :
  P [] s0 →
  (∀ pre x post s s1, xs = pre ++ x :: post → P pre s → f s x = Ok s1 →
                      P (pre ++ [x]) s1) →
  for_each f xs s0 = Ok s' → P xs s'.
Proof.
  intros H0 Hstep.
  assert (∀ pre post s, xs = pre ++ post → P pre s →
                        for_each f post s = Ok s' → P xs s') as Hgen.
  { intros pre post. revert pre.
    induction post as [|x post IH]; intros pre s Hxs Hpre; simpl.
    - intros [= <-]. by rewrite Hxs, app_nil_r.
    - destruct (f s x) as [s1|] eqn:Hf; simpl; [|done].
      apply (IH (pre ++ [x])); [by rewrite <- (assoc_L (++))|].
      by eapply Hstep. }
  by apply (Hgen [] xs s0).
Qed.

Lemma keys_set_known {V} k (v v0 : V) d :
  OrderedDict.get k d = Some v0 →
  OrderedDict.keys (OrderedDict.set k v d) = OrderedDict.keys d.
Proof.
  unfold OrderedDict.keys. induction d as [|[k' v'] d IH]; simpl; [done|].
  destruct (decide (k' = k)) as [->|Hne]; simpl; [done|].
  intros Hg. f_equal. by apply IH.
Qed.




Lemma call_add_node_Ok n a g g' :
  nx.call_add_node n a g = Ok g' → g' = nx.add_node n a g.
Proof. unfold nx.call_add_node. destruct (nx.kwargs_clash _ _); congruence. Qed.

Lemma call_add_edge_type_Ok u v ty a g g' :
  nx.call_add_edge_type u v ty a g = Ok g' → ∃ a', g' = nx.add_edge u v a' g.
Proof.
  unfold nx.call_add_edge_type. destruct (nx.kwargs_clash _ _); [done|].
  intros [= <-]. eauto.
Qed.


End PatternGraphFacts.

(* ================================================================== *)
(** ** Further behaviour of the builder and the search *)

Section Remarks.
Context `{PyFloat}.
Import GraphPlotter.

(** Without a plot, [highlight_nodes] matches nothing. *)
Lemma highlight_without_renderer (p : t) term :
  graph_renderer p = None → highlight_nodes p term = Ok (p, []).
Proof. intros Hr. unfold highlight_nodes. by rewrite Hr. Qed.

(** If the node styling raises, so do the search and the reset. *)
Lemma highlight_reset_raise (p : t) (r : Renderer) term e :
  graph_renderer p = Some r →
  _get_node_styling (G p) = Raise e →
  highlight_nodes p term = Raise e ∧ reset_node_colors p = Raise e.
Proof.
  intros Hr He. unfold highlight_nodes, reset_node_colors. by rewrite Hr, He.
Qed.

End Remarks.

Section RemarkExamples.
Import Examples GraphPlotter.

(** A relationship property named [type] makes the builder raise
    [TypeError]: the keyword is passed twice to [add_edge]. *)
Example keyword_clash_raises :
  _create_networkx_graph
    {| nodes := nodes gd_friends;
       relationships :=
         [("r1", {| rel_type := "KNOWS";
                    rel_properties := Some (<["type" := PStr "close"]> ∅);
                    start_node := "p1"; end_node := "p2" |})] |}
  = Raise TypeError.
Proof. by vm_compute. Qed.

(** The statistics of [gd_two_roles]: two nodes, one edge. *)
Example statistics_two_roles :
  (g ← _create_networkx_graph gd_two_roles;
   get_graph_statistics
     {| graph_data := gd_two_roles; G := g; graph_renderer := None |})
  = Ok (Some {| total_nodes := 2; total_edges := 1;
                node_types := [(PStr "Person", 1); (PStr "Movie", 1)];
                edge_types := [(PStr "DIRECTED", 1)] |}).
Proof. by vm_compute. Qed.

End RemarkExamples.

(* ================================================================== *)
(** ** More on graph_plotting.py: styling errors, histogram entries,
    repeated and refined searches *)

Section PlotterProperties.
Context `{PyFloat}.
Import GraphPlotter.

(** the node type is a string *)
Definition text_typed (x : string * nx.NodeEntry) : Prop :=
  is_str (get_type (nx.attrs x.2)) = true.

Lemma node_style_cases v :
  (is_str v = true ∧ ∃ cs, node_style v = Ok cs) ∨
  (is_str v = false ∧ node_style v = Raise AttributeError).
Proof.
  destruct v; try (by right). left. split; [done|].
  unfold node_style. simpl.
  repeat (match goal with |- context [if ?b then _ else _] => destruct b end;
          simpl; eauto).
Qed.

Lemma styling_loop_cases tbl :
  match styling_loop tbl with
  | Ok (cols, sizes) =>
      length cols = length tbl ∧ length sizes = length tbl ∧
      Forall text_typed tbl
  | Raise e => e = AttributeError ∧ ¬ Forall text_typed tbl
  end.
Proof.
  induction tbl as [|[n e] tbl IH]; simpl; [by split_and!|].
  destruct (node_style_cases (get_type (nx.attrs e))) as [[Hs [[c z] ->]]|[Hs ->]];
    simpl.
  - destruct (styling_loop tbl) as [[cs zs]|x]; simpl.
    + destruct IH as (Hc & Hz & Hall). split_and!; [by rewrite Hc|by rewrite Hz|].
      by constructor.
    + destruct IH as [-> Hn]. split; [done|]. by intros [_ ?]%Forall_cons.
  - split; [done|]. intros [Hx _]%Forall_cons. unfold text_typed in Hx.
    simpl in Hx. congruence.
Qed.

(** X1.  [_get_node_styling] returns one colour and one size per node
    when every node type is a string, and raises [AttributeError]
    otherwise (the type is asked for its [startswith] method); it raises
    nothing else. *)
Theorem styling_raises_exactly_on_non_text_type (g : nx.DiGraph) :
  match _get_node_styling g with
  | Ok (cols, sizes) =>
      length cols = length (nx.nodes g) ∧ length sizes = length (nx.nodes g) ∧
      Forall text_typed (nx.table g)
  | Raise e => e = AttributeError ∧ ¬ Forall text_typed (nx.table g)
  end.
Proof.
  unfold _get_node_styling, nx.nodes, OrderedDict.keys. rewrite length_fmap.
  apply styling_loop_cases.
Qed.

(** [d.get(s, 0)] on a dictionary of counters, for a string key *)
Fixpoint hist_count (s : string) (d : list (PropertyValue * nat)) : nat :=
  match d with
  | [] => 0
  | (k, n) :: d' => if key_eqb k (PStr s) then n else hist_count s d'
  end.

Lemma key_eqb_str_l s k : key_eqb (PStr s) k = eq_str k s.
Proof.
  destruct k; simpl; try done.
  destruct (String.eqb_spec s s0) as [->|Hne].
  - by rewrite String.eqb_refl.
  - symmetry. apply String.eqb_neq. congruence.
Qed.

Lemma key_eqb_str_r s k : key_eqb k (PStr s) = eq_str k s.
Proof. by destruct k. Qed.

(** if a key equals two keys, one of which is a string, the two are the
    same string *)
Lemma key_eqb_str_trans k' k s :
  key_eqb k' k = true → key_eqb k' (PStr s) = eq_str k s.
Proof.
  rewrite key_eqb_str_r. destruct k' as [| | | |t|]; simpl.
  - by destruct k.
  - by destruct k.
  - by destruct k.
  - by destruct k.
  - destruct k; try done. simpl. intros ->%String.eqb_eq. done.
  - done.
Qed.

Lemma hist_count_up s k d :
  hist_count s (count_up k d)
  = hist_count s d + (if eq_str k s then 1 else 0).
Proof.
  induction d as [|[k' n] d IH]; simpl.
  - rewrite key_eqb_str_r. by destruct (eq_str k s).
  - destruct (key_eqb k' k) eqn:Hk; simpl.
    + rewrite (key_eqb_str_trans k' k s Hk).
      destruct (eq_str k s); lia.
    + destruct (key_eqb k' (PStr s)) eqn:Hs; [|done].
      destruct (eq_str k s) eqn:Hks; [|lia].
      destruct k; try done. simpl in Hks. apply String.eqb_eq in Hks as ->.
      congruence.
Qed.

Lemma count_loop_hist {A} (proj : A → gmap string PropertyValue) xs d d' s :
  for_each (λ d x, count_type d (proj x)) xs d = Ok d' →
  hist_count s d'
  = hist_count s d + length (filter (λ x, eq_str (get_type (proj x)) s = true) xs).
Proof.
  revert d. induction xs as [|x xs IH]; intros d.
  - intros [= <-]. simpl. lia.
  - change (for_each (λ d x, count_type d (proj x)) (x :: xs) d)
      with (d1 ← count_type d (proj x);
            for_each (λ d x, count_type d (proj x)) xs d1).
    assert (count_type d (proj x) =
            if hashable (get_type (proj x))
            then Ok (count_up (get_type (proj x)) d) else Raise TypeError)
      as -> by done.
    destruct (hashable (get_type (proj x))); simpl; [|done].
    intros Hrest%IH. rewrite Hrest, hist_count_up, filter_cons.
    destruct (eq_str (get_type (proj x)) s) eqn:Hs.
    + rewrite decide_True by done. simpl. lia.
    + rewrite decide_False by done. lia.
Qed.

(** X2.  Whenever [get_graph_statistics] returns the statistics, the
    entry of every type name in the node histogram is the number of nodes
    of that type, and its entry in the edge histogram is the number of
    edges of that type (a missing entry counting as zero). *)
Theorem statistics_histogram_entries (p : t) :
  match get_graph_statistics p with
  | Ok (Some st) =>
      ∀ s, hist_count s (node_types st)
           = length (filter (λ x, eq_str (get_type (nx.attrs x.2)) s = true)
                       (nx.table (G p))) ∧
           hist_count s (edge_types st)
           = length (filter (λ x, eq_str (get_type x.2) s = true)
                       (nx.edges_data (G p)))
  | _ => True
  end.
Proof.
  unfold get_graph_statistics. case_bool_decide; [done|].
  rewrite (for_each_ext _ (λ d x, count_type d (nx.attrs x.2)));
    [|by intros d [? ?]].
  destruct (for_each _ (nx.table (G p)) []) as [nt|e] eqn:Hn; simpl; [|done].
  rewrite (for_each_ext _ (λ d x, count_type d x.2));
    [|by intros d [[? ?] ?]].
  destruct (for_each _ (nx.edges_data (G p)) []) as [et|e] eqn:He; simpl; [|done].
  intros s. split.
  - by rewrite (count_loop_hist _ _ _ _ s Hn).
  - by rewrite (count_loop_hist _ _ _ _ s He).
Qed.

(** X3.  A search forgets the searches before it: searching for one term
    and then for another leaves the plotter in the state, and returns the
    matches, of the second search alone -- also when there is no plot or
    when the styling raises. *)
Theorem search_replaces_previous_search (p : t) (term1 term2 : string) :
  (x ← highlight_nodes p term1; highlight_nodes x.1 term2)
  = highlight_nodes p term2.
Proof.
  destruct (graph_renderer p) as [r|] eqn:Hr.
  - destruct (_get_node_styling (G p)) as [[cols sizes]|e] eqn:Hst.
    + rewrite (highlight_nodes_spec p r term1 cols sizes Hr Hst).
      rewrite (highlight_nodes_spec p r term2 cols sizes Hr Hst).
      cbn [mbind result_bind fst].
      by rewrite (highlight_nodes_spec (set_color p r _)
                    {| color := _; radius := radius r |} term2 cols sizes
                    eq_refl Hst).
    + unfold highlight_nodes. by rewrite Hr, Hst.
  - rewrite (highlight_without_renderer p term1 Hr).
    cbn [mbind result_bind fst]. done.
Qed.

End PlotterProperties.

(* ================================================================== *)
(** ** Substrings, and refining a search *)

Section SubstringFacts.

Lemma append_cons c (a b : string) : String c a +:+ b = String c (a +:+ b).
Proof. done. Qed.


Lemma prefix_empty s : String.prefix EmptyString s = true.
Proof. by destruct s. Qed.

Lemma prefix_append sub post : String.prefix sub (sub +:+ post) = true.
Proof.
  induction sub as [|c sub IH]; [apply prefix_empty|].
  rewrite append_cons. simpl. destruct (ascii_dec c c); [apply IH|done].
Qed.







End SubstringFacts.

Section RefinedSearch.
Context `{PyFloat}.
Import GraphPlotter.



End RefinedSearch.

Section RefinedSearchExamples.
Import Examples GraphPlotter.


End RefinedSearchExamples.

(* ================================================================== *)
(** ** What the builder puts in the graph *)

Section BuilderProperties.
Context `{PyFloat}.
Import GraphPlotter OrderedDictFacts.
Implicit Types g : nx.DiGraph.

(** [n] is an endpoint of a relationship of [rs] *)
Definition is_endpoint (rs : list (string * RelInfo)) (n : string) : Prop :=
  ∃ id r, (id, r) ∈ rs ∧ (n = start_node r ∨ n = end_node r).

Lemma nodes_add_nodes ns g n :
  n ∈ nx.nodes (add_nodes ns g) ↔ n ∈ nx.nodes g ∨ n ∈ OrderedDict.keys ns.
Proof.
  unfold nx.nodes. rewrite <- !(get_is_Some_keys n (nx.table _)). revert g.
  induction ns as [|[n' info] ns IH]; intros g; simpl.
  - split; [by left|]. intros [?|Hin]; [done|]. by apply elem_of_nil in Hin.
  - fold (add_nodes ns (nx.add_node n' (node_props info) g)).
    rewrite IH, get_add_node. unfold OrderedDict.keys. simpl.
    rewrite elem_of_cons.
    destruct (decide (n' = n)) as [->|Hne].
    + split; [intros _; right; by left|]. intros _. left. eauto.
    + split.
      * intros [?|?]; [by left|right; by right].
      * intros [?|[?|?]]; [by left|congruence|by right].
Qed.

Lemma nodes_add_edge u v a g n :
  n ∈ nx.nodes (nx.add_edge u v a g) ↔ n ∈ nx.nodes g ∨ n = u ∨ n = v.
Proof.
  unfold nx.nodes. rewrite <- !get_is_Some_keys, get_add_edge.
  unfold with_endpoints.
  destruct (OrderedDict.get n (nx.table g)) as [e|] eqn:He.
  - split; [intros _; left; eauto|]. intros _. destruct (decide (n = u)); eauto.
  - destruct (decide (n = u ∨ n = v)) as [Huv|Huv].
    + split; [intros _; by right|]. intros _. destruct (decide (n = u)); eauto.
    + split.
      * destruct (decide (n = u)); simpl; by intros [? [=]].
      * intros [[? [=]]|?]; done.
Qed.

Lemma nodes_add_edges rs g n :
  n ∈ nx.nodes (add_edges rs g) ↔ n ∈ nx.nodes g ∨ is_endpoint rs n.
Proof.
  revert g. induction rs as [|[id r] rs IH]; intros g; simpl.
  - split; [by left|]. intros [?|(? & ? & Hin & _)]; [done|].
    by apply elem_of_nil in Hin.
  - fold (add_edges rs (nx.add_edge (start_node r) (end_node r) (edge_attr r) g)).
    rewrite IH, nodes_add_edge. unfold is_endpoint. split.
    + intros [[?|Hn]|(id' & r' & Hin & Hn)].
      * by left.
      * right. exists id, r. split; [apply list_elem_of_here|done].
      * right. exists id', r'. split; [by apply list_elem_of_further|done].
    + intros [?|(id' & r' & [[= -> ->]|Hin]%elem_of_cons & Hn)].
      * left. by left.
      * left. by right.
      * right. eauto.
Qed.

(** X5.  [_create_networkx_graph] raises only [TypeError], and exactly on
    a payload with a property named like a keyword parameter.  The graph
    it otherwise builds has the payload's node ids and the endpoints of
    the payload's relationships as its nodes, and the endpoint pairs of
    the relationships as its edges, and nothing else. *)
Theorem builder_raises_exactly_on_keyword_clash (gd : GraphData) :
  match _create_networkx_graph gd with
  | Ok g =>
      keywords_free gd ∧
      (∀ n, n ∈ nx.nodes g ↔
            n ∈ OrderedDict.keys (nodes gd) ∨ is_endpoint (relationships gd) n) ∧
      (∀ u v, is_Some (nx.edge_data g u v) ↔
              ∃ id r, (id, r) ∈ relationships gd ∧
                      start_node r = u ∧ end_node r = v)
  | Raise e => e = TypeError ∧ ¬ keywords_free gd
  end.
Proof.
  destruct (create_networkx_graph_spec gd) as [[Hfree ->]|[Hn ->]]; [|done].
  split; [done|]. split.
  - intros n. rewrite nodes_add_edges, nodes_add_nodes.
    split; [intros [[Hin|?]|?]|intros [?|?]]; auto.
    by apply elem_of_nil in Hin.
  - intros u v. split.
    + intros [dd [(r & (pre & id & post & -> & Hu & Hv & _) & _)|[_ Hdd]]
                    %edge_type_add_edges].
      * exists id, r. split; [|done]. apply elem_of_app. right.
        apply list_elem_of_here.
      * by rewrite edge_data_add_nodes in Hdd.
    + intros (id & r & Hin & <- & <-). by eapply add_edges_present.
Qed.

End BuilderProperties.

(* ================================================================== *)
(** ** The pattern plot of graph_plotting.py *)

Section PatternPlotProperties.
Context `{PyFloat}.
Import GraphPlotter OrderedDictFacts PatternPlot.
Implicit Types g : nx.DiGraph.









End PatternPlotProperties.

(* ================================================================== *)
(** ** The property explorer of a pattern plot *)

Section ExplorerProperties.
Context `{PyFloat}.
Import GraphPlotter OrderedDictFacts PatternPropertyExplorer.
Implicit Types g : nx.DiGraph.




Lemma filter_loop_colours e f ns cs k :
  filter_loop e f ns = Ok (cs, k) →
  length cs = length ns ∧
  k = length (filter (λ c, c = "#FFD700") cs) ∧
  Forall (λ c, c = "#FFD700" ∨ c = "#CCCCCC") cs.
Proof.
  revert cs k. induction ns as [|n ns IH]; intros cs k; simpl.
  - intros [= <- <-]. by split_and!.
  - destruct (matches e f n) as [m|]; simpl; [|done].
    destruct (filter_loop e f ns) as [[cs' k']|]; simpl; [|done].
    destruct (IH cs' k' eq_refl) as (Hlen & Hk & Hall).
    destruct m; intros [= <- <-]; simpl.
    + split_and!; [by rewrite Hlen|by rewrite Hk|constructor; auto].
    + split_and!; [by rewrite Hlen|done|constructor; auto].
Qed.

(** X8.  [_apply_filter] raises only [KeyError], and exactly when the
    pattern graph has a node that the pattern data lacks.  Otherwise it
    keeps the data, the graph and the radii; with a renderer it writes one
    colour per node, each gold or grey (the type colours are gone), and
    the count it prints is the number of gold entries. *)
Theorem filter_paints_gold_or_grey (e : t) (f : Filter) :
  match _apply_filter e f with
  | Ok (e', k) =>
      nodes_known e ∧ pattern_data e' = pattern_data e ∧
      pattern_graph e' = pattern_graph e ∧
      (k ≤ length (nx.nodes (pattern_graph e)))%nat ∧
      match graph_renderer e with
      | None => graph_renderer e' = None
      | Some r =>
          ∃ cs, graph_renderer e' = Some {| color := cs; radius := radius r |} ∧
                length cs = length (nx.nodes (pattern_graph e)) ∧
                Forall (λ c, c = "#FFD700" ∨ c = "#CCCCCC") cs ∧
                k = length (filter (λ c, c = "#FFD700") cs)
      end
  | Raise x => x = KeyError ∧ ¬ nodes_known e
  end.
Proof.
  unfold _apply_filter.
  destruct (filter_loop_cases e f (nx.nodes (pattern_graph e)))
    as [[Hknown [[cs k] Hl]]|[Hn ->]]; [|done].
  rewrite Hl. simpl.
  destruct (filter_loop_colours e f _ cs k Hl) as (Hlen & Hk & Hall).
  split_and!; try done.
  - rewrite Hk, <- Hlen. apply length_filter.
  - destruct (graph_renderer e) as [r|]; [|done]. by exists cs.
Qed.

End ExplorerProperties.

(* ================================================================== *)
(** ** The dropdowns of the property explorer *)

Section ControlsProperties.
Context `{PyFloat}.
Import OrderedDictFacts PatternPropertyExplorer GraphSearchInterface.

(** A loop that raises does so in its body, on one of its elements. *)
Lemma for_each_raise {A S} (f : S → A → result S) xs s e :
  for_each f xs s = Raise e → ∃ x s', x ∈ xs ∧ f s' x = Raise e.
Proof.
  revert s. induction xs as [|x xs IH]; intros s; simpl; [done|].
  destruct (f s x) as [s1|e1] eqn:Hf; simpl.
  - intros (y & s' & Hin & Hy)%IH. exists y, s'.
    split; [by apply list_elem_of_further|done].
  - intros [= ->]. exists x, s. split; [apply list_elem_of_here|done].
Qed.



End ControlsProperties.

(* ================================================================== *)
(** ** The pattern search of Project files/app.py *)

Section PatternSearchProperties.
Context `{PyFloat}.
Import App OrderedDictFacts.
Implicit Types g : nx.DiGraph.

Lemma no_edges_edge_data g u v :
  Forall (λ x, nx.succ x.2 = []) (nx.table g) → nx.edge_data g u v = None.
Proof.
  intros Hall. unfold nx.edge_data.
  destruct (OrderedDict.get u _) as [e|] eqn:He; simpl; [|done].
  apply get_Some_elem in He. rewrite Forall_forall in Hall.
  specialize (Hall _ He). simpl in Hall. by rewrite Hall.
Qed.

(** the ids of the two lists are ids of payload nodes *)
Lemma matching_nodes_known (gd : GraphData) a b n :
  n ∈ pattern_node_ids (find_matching_nodes a b (nodes gd)).1
        (find_matching_nodes a b (nodes gd)).2 →
  ∃ info, OrderedDict.get n (nodes gd) = Some info ∧ (n, info) ∈ nodes gd.
Proof.
  rewrite pattern_node_ids_spec, find_matching_nodes_a, find_matching_nodes_b.
  assert (n ∈ OrderedDict.keys (nodes gd) →
          ∃ info, OrderedDict.get n (nodes gd) = Some info ∧ (n, info) ∈ nodes gd)
    as Hkey.
  { intros [info Hg]%get_is_Some_keys. exists info. split; [done|].
    by apply get_Some_elem. }
  intros [Hin|Hin]; apply Hkey; unfold OrderedDict.keys;
    apply list_elem_of_fmap in Hin as (x & -> & Hx%list_elem_of_filter);
    apply list_elem_of_fmap; exists x; split; [done|apply Hx|done|apply Hx].
Qed.

(** X9.  The pattern search of app.py raises only [TypeError], and only
    on a payload with a property named like a keyword parameter; it never
    raises [KeyError].  The edges of the pattern graph it returns are
    exactly the endpoint pairs of the relationships of the queried type
    that lead from a node of the first type to a node of the second type
    that is not of the first type too. *)
Theorem pattern_search_edges (gd : GraphData) (type_a rel_type_q type_b : string) :
  match create_pattern_visualization gd type_a rel_type_q type_b with
  | Ok res =>
      ∀ u v, is_Some (nx.edge_data (pattern_G res) u v) ↔
        ∃ id r info_u info_v,
          (id, r) ∈ relationships gd ∧ rel_type r = rel_type_q ∧
          start_node r = u ∧ end_node r = v ∧
          (u, info_u) ∈ nodes gd ∧ primary_label info_u = type_a ∧
          (v, info_v) ∈ nodes gd ∧ primary_label info_v = type_b ∧
          primary_label info_v ≠ type_a
  | Raise e => e = TypeError ∧ ¬ keywords_free gd
  end.
Proof.
  unfold create_pattern_visualization.
  pose proof (matching_nodes_known gd type_a type_b) as Hknown.
  pose proof (find_matching_nodes_a type_a type_b (nodes gd)) as Ha.
  pose proof (find_matching_nodes_b type_a type_b (nodes gd)) as Hb.
  destruct (find_matching_nodes type_a type_b (nodes gd)) as [a b].
  simpl in Hknown, Ha, Hb.
  destruct (for_each _ (pattern_node_ids a b) nx.empty) as [g1|e] eqn:H1;
    cbn [mbind result_bind].
  2:{ apply for_each_raise in H1 as (n & g & Hin & Hstep).
      destruct (Hknown n Hin) as (info & Hget & Hel). rewrite Hget in Hstep.
      simpl in Hstep.
      destruct (call_add_node_spec n info g) as [[_ Hok]|[Hclash Hr]];
        [congruence|].
      rewrite Hr in Hstep. injection Hstep as <-. split; [done|].
      intros [Hnodes _]. rewrite Forall_forall in Hnodes.
      by apply (Hclash (Hnodes _ Hel)). }
  assert (Forall (λ x, nx.succ x.2 = []) (nx.table g1)) as Hno.
  { revert H1.
    apply (for_each_invariant
             (λ _ g, Forall (λ x, nx.succ x.2 = []) (nx.table g)));
      [constructor|].
    intros pre n post g g' _ Hg Hstep.
    destruct (OrderedDict.get n (nodes gd)) as [info|]; simpl in Hstep; [|done].
    apply call_add_node_Ok in Hstep as ->.
    by apply (add_nodes_no_edges [(n, info)]). }
  destruct (for_each _ (find_matching_relationships rel_type_q a b
                          (relationships gd)) g1) as [g2|e] eqn:H2;
    cbn [mbind result_bind].
  2:{ apply for_each_raise in H2 as ([[s t] r] & g & Hin & Hstep).
      apply find_matching_relationships_spec in Hin
        as ([id Hel] & -> & -> & _).
      destruct (call_add_edge_spec r g) as [[_ Hok]|[Hclash Hr]];
        [congruence|].
      rewrite Hr in Hstep. injection Hstep as <-. split; [done|].
      intros [_ Hrels]. rewrite Forall_forall in Hrels.
      by apply (Hclash (Hrels _ Hel)). }
  simpl. intros u v.
  assert (is_Some (nx.edge_data g2 u v) ↔
          ∃ r, (u, v, r) ∈ find_matching_relationships rel_type_q a b
                              (relationships gd)) as ->.
  { revert H2.
    apply (for_each_invariant
             (λ pre g, is_Some (nx.edge_data g u v) ↔
                       ∃ r, (u, v, r) ∈ (pre : list (string * string * RelInfo)))).
    - rewrite no_edges_edge_data by done. split; [by intros [? [=]]|].
      intros [r Hin]. by apply elem_of_nil in Hin.
    - intros pre [[s t] r] post g g' _ Hpre Hstep.
      apply call_add_edge_type_Ok in Hstep as [a' ->].
      rewrite edge_data_add_edge.
      destruct (decide (u = s ∧ v = t)) as [[-> ->]|Hne].
      + split; [intros _|eauto]. exists r. apply elem_of_app. right.
        apply list_elem_of_here.
      + rewrite Hpre. split.
        * intros [r' Hin]. exists r'. apply elem_of_app. by left.
        * intros [r' [Hin|Hin%list_elem_of_singleton]%elem_of_app]; [eauto|].
          injection Hin as -> -> _. by destruct Hne. }
  split.
  - intros [r Hin]. apply find_matching_relationships_spec in Hin
      as ([id Hel] & -> & -> & Hq & Hs & Ht).
    rewrite Ha in Hs. rewrite Hb in Ht.
    apply list_elem_of_fmap in Hs as ([n1 i1] & Hn1 & [Hl1 Hin1]%list_elem_of_filter).
    apply list_elem_of_fmap in Ht as ([n2 i2] & Hn2 & [Hl2 Hin2]%list_elem_of_filter).
    simpl in *. subst n1 n2. destruct Hl2 as [Hna Hlb].
    exists id, r, i1, i2. by split_and!.
  - intros (id & r & i1 & i2 & Hel & Hq & <- & <- & Hin1 & Hl1 & Hin2 & Hl2 & Hna).
    exists r. apply find_matching_relationships_spec. split_and!; eauto.
    + rewrite Ha. apply list_elem_of_fmap. exists (start_node r, i1).
      split; [done|]. by apply list_elem_of_filter.
    + rewrite Hb. apply list_elem_of_fmap. exists (end_node r, i2).
      split; [done|]. by apply list_elem_of_filter.
Qed.

End PatternSearchProperties.

(* ================================================================== *)
(** ** The property filter of Project files/app.py *)

Section PropertyFilterProperties.
Context `{PyFloat}.
Import App OrderedDictFacts PropertyControls.
Implicit Types g : nx.DiGraph.







(** *** The edges of a pattern graph under the filter *)







End PropertyFilterProperties.

(* ================================================================== *)
(** ** The text search of Project files/app.py *)

Section AppSearchProperties.
Context `{PyFloat}.
Import GraphPlotter AppSearch.

Lemma search_loop_spec term tbl pre past cols :
  length pre = length past → length cols = length tbl →
  search_loop term (pre ++ cols) (length pre) tbl (past ++ cols)
  = (past ++ highlighted (λ x, found term (nx.attrs x.2)) tbl cols, None).
Proof.
  revert pre past cols.
  induction tbl as [|[n e] tbl IH]; intros pre past cols Hpre Hlen.
  - by destruct cols.
  - destruct cols as [|c cs]; [done|]. injection Hlen as Hlen.
    cbn [search_loop]. rewrite list_lookup_middle by done.
    set (c' := if found term (nx.attrs e) then "#FFD700" else c).
    assert ((if found term (nx.attrs e) then Ok "#FFD700"
             else of_option IndexError (Some c)) = Ok c') as ->
      by (unfold c'; by destruct (found term (nx.attrs e))).
    cbn [mbind result_bind]. unfold set_item.
    rewrite decide_True by (rewrite length_app; simpl; lia).
    rewrite Hpre, insert_app_r_alt, Nat.sub_diag by done. cbn [list_insert insert].
    assert (length (pre ++ [c]) = S (length past)) as Hp1
      by (rewrite length_app; simpl; lia).
    specialize (IH (pre ++ [c]) (past ++ [c']) cs).
    rewrite Hp1, <- !(assoc_L (++)) in IH. simpl in IH.
    rewrite IH; [done|rewrite length_app; simpl; lia|done].
Qed.

Lemma lower_is_empty s : PyStr.is_empty (PyStr.lower s) = PyStr.is_empty s.
Proof. by destruct s. Qed.

Lemma length_highlighted hit tbl (cols : list string) :
  length cols = length tbl → length (highlighted hit tbl cols) = length tbl.
Proof. intros Hlen. unfold highlighted. rewrite length_zip_with. lia. Qed.

Lemma highlighted_twice hit1 hit2 tbl (cols : list string) :
  highlighted hit2 tbl (highlighted hit1 tbl cols)
  = highlighted (λ x, hit1 x || hit2 x) tbl cols.
Proof.
  unfold highlighted. revert cols.
  induction tbl as [|x tbl IH]; intros [|c cs]; simpl; try done.
  rewrite IH. by destruct (hit1 x), (hit2 x).
Qed.

(** X12.  The search box of the first app.py works on the colour column
    in place and takes the current colours as the original ones, so
    highlights accumulate: on a column with one colour per node, two
    searches in a row leave gold every node that matches the first or the
    second term, and nothing is raised.  (The empty term returns at once
    and changes nothing.) *)
Theorem app_search_accumulates (G : nx.DiGraph) (color : list string)
    (term1 term2 : string) :
  length color = length (nx.nodes G) →
  term1 ≠ EmptyString → term2 ≠ EmptyString →
  search_nodes G EmptyString color = (color, None) ∧
  search_nodes G term2 (search_nodes G term1 color).1
  = (highlighted (λ x, found (PyStr.lower term1) (nx.attrs x.2) ||
                       found (PyStr.lower term2) (nx.attrs x.2))
       (nx.table G) color, None).
Proof.
  unfold nx.nodes, OrderedDict.keys. rewrite length_fmap.
  intros Hlen H1 H2. split; [done|].
  assert (∀ t cs, t ≠ EmptyString → length cs = length (nx.table G) →
            search_nodes G t cs
            = (highlighted (λ x, found (PyStr.lower t) (nx.attrs x.2))
                 (nx.table G) cs, None)) as Hone.
  { intros t cs Ht Hcs. unfold search_nodes. rewrite lower_is_empty.
    destruct t; [done|]. cbn [PyStr.is_empty].
    apply (search_loop_spec _ _ [] [] cs); done. }
  rewrite (Hone term1 color H1 Hlen). cbn [fst].
  rewrite Hone by (done || by apply length_highlighted).
  by rewrite highlighted_twice.
Qed.

End AppSearchProperties.

(* ================================================================== *)
(** ** The payload of fetch_graph_data.py *)

Section FetcherProperties.
Context `{PyFloat}.
Import OrderedDictFacts GraphDataFetcher.

Lemma NoDup_keys_set {V} k (v : V) d :
  NoDup (OrderedDict.keys d) → NoDup (OrderedDict.keys (OrderedDict.set k v d)).
Proof.
  intros Hnd. destruct (OrderedDict.get k d) as [v0|] eqn:Hg.
  - by rewrite (keys_set_known k v v0 d Hg).
  - rewrite set_fresh by done. unfold OrderedDict.keys in *.
    rewrite fmap_app. apply NoDup_app. split_and!; [done| |apply NoDup_singleton].
    intros x Hx ->%list_elem_of_singleton. by apply get_None_keys in Hg.
Qed.

(** A dictionary filled by a loop of guarded assignments has distinct
    keys, and holds under a key the value of the last element assigned to
    it. *)
Lemma fold_set {A V} (key : A → option string) (val : A → V) rows d :
  let d' := fold_left (λ d r, match key r with
                              | Some k => OrderedDict.set k (val r) d
                              | None => d
                              end) rows d in
  (NoDup (OrderedDict.keys d) → NoDup (OrderedDict.keys d')) ∧
  ∀ k, OrderedDict.get k d'
       = match last (filter (λ r, key r = Some k) rows) with
         | Some r => Some (val r)
         | None => OrderedDict.get k d
         end.
Proof.
  revert d. induction rows as [|r rows IH]; intros d; simpl; [done|].
  destruct (IH (match key r with
                | Some k => OrderedDict.set k (val r) d
                | None => d
                end)) as [Hnd Hget].
  split.
  - intros Hd. apply Hnd. destruct (key r); [by apply NoDup_keys_set|done].
  - intros k. rewrite Hget, filter_cons.
    destruct (decide (key r = Some k)) as [Hk|Hk].
    + rewrite last_cons. destruct (last (filter _ rows)); [done|].
      by rewrite Hk, get_set_eq.
    + destruct (last (filter _ rows)); [done|].
      destruct (key r) as [k'|]; [|done]. rewrite get_set_ne; [done|congruence].
Qed.

Lemma truthy_id_Some o id :
  truthy_id o = Some id ↔ o = Some id ∧ id ≠ EmptyString.
Proof.
  destruct o as [[|c s]|]; simpl; split; try done; try by intros [[=] _].
  - by intros [[= <-] ?].
  - by intros [= <-].
  - by intros [[= <-] _].
Qed.

(** X13.  The payload of [get_limited_graph_data] is a dictionary in
    earnest: its node ids are distinct and so are its relationship ids;
    no entry has the empty id, records with a null or empty id being
    dropped; and under every other id it holds the last record of the
    query result with that id. *)
Theorem limited_payload_keeps_last_record (node_rows : list NodeRecord)
    (rel_rows : list RelRecord) :
  let gd := get_limited_graph_data node_rows rel_rows in
  NoDup (OrderedDict.keys (nodes gd)) ∧
  NoDup (OrderedDict.keys (relationships gd)) ∧
  OrderedDict.get EmptyString (nodes gd) = None ∧
  OrderedDict.get EmptyString (relationships gd) = None ∧
  ∀ id, id ≠ EmptyString →
    OrderedDict.get id (nodes gd)
    = node_entry <$> last (filter (λ r, node_id r = Some id) node_rows) ∧
    OrderedDict.get id (relationships gd)
    = rel_entry <$> last (filter (λ r, rel_id r = Some id) rel_rows).
Proof.
  simpl. unfold limited_nodes, limited_relationships.
  destruct (fold_set (λ r, truthy_id (node_id r)) node_entry node_rows [])
    as [Hnd Hget].
  destruct (fold_set (λ r, truthy_id (rel_id r)) rel_entry rel_rows [])
    as [Hnd' Hget'].
  simpl in *.
  assert (∀ {A} (key : A → option string) (rows : list A),
            filter (λ r, truthy_id (key r) = Some EmptyString) rows = []) as Hnone.
  { intros A key rows. induction rows as [|r rows IH]; [done|].
    rewrite filter_cons, decide_False; [done|].
    by intros [_ ?]%truthy_id_Some. }
  assert (∀ {A} (key : A → option string) (rows : list A) id,
            id ≠ EmptyString →
            filter (λ r, truthy_id (key r) = Some id) rows
            = filter (λ r, key r = Some id) rows) as Hsome.
  { intros A key rows id Hid. apply list_filter_iff. intros r.
    rewrite truthy_id_Some. split; [by intros [? _]|by intros ?]. }
  split_and!.
  - apply Hnd. constructor.
  - apply Hnd'. constructor.
  - by rewrite Hget, Hnone.
  - by rewrite Hget', Hnone.
  - intros id Hid. rewrite Hget, Hget', !Hsome by done.
    split; by destruct (last _).
Qed.

Lemma get_count_key d k l :
  default 0 (OrderedDict.get l (count_key d k))
  = (default 0 (OrderedDict.get l d) + (if decide (k = l) then 1 else 0))%nat.
Proof.
  unfold count_key. rewrite get_set.
  destruct (decide (k = l)) as [->|]; simpl; lia.
Qed.

Lemma count_keys d ks l :
  default 0 (OrderedDict.get l (fold_left count_key ks d))
  = (default 0 (OrderedDict.get l d) + length (filter (λ k, k = l) ks))%nat.
Proof.
  revert d. induction ks as [|k ks IH]; intros d; simpl; [lia|].
  rewrite IH, get_count_key, filter_cons.
  destruct (decide (k = l)); simpl; lia.
Qed.

(** X14.  The type summary of the fetcher counts labels, not nodes: the
    entry of a label is the number of its occurrences in the label lists
    of all nodes, so that a node with several labels is counted once under
    each and a node without a label nowhere.  The entry of a relationship
    type is the number of relationships of that type.  (A missing entry
    counts as zero.) *)
Theorem fetcher_counts_every_label (node_data : list (string * NodeInfo))
    (rel_data : list (string * RelInfo)) (l : string) :
  default 0 (OrderedDict.get l (_get_node_type_counts node_data))
  = length (filter (λ k, k = l) (concat (map (λ x, labels x.2) node_data))) ∧
  default 0 (OrderedDict.get l (_get_relationship_type_counts rel_data))
  = length (filter (λ x, rel_type x.2 = l) rel_data).
Proof.
  split.
  - unfold _get_node_type_counts.
    assert (∀ d, default 0 (OrderedDict.get l
                   (fold_left (λ node_types node,
                                 fold_left count_key (labels node.2) node_types)
                      node_data d))
                 = (default 0 (OrderedDict.get l d) +
                    length (filter (λ k, k = l)
                              (concat (map (λ x, labels x.2) node_data))))%nat)
      as Hgen.
    { induction node_data as [|x xs IH]; intros d; simpl; [lia|].
      rewrite IH, count_keys, filter_app, length_app. lia. }
    by rewrite Hgen.
  - unfold _get_relationship_type_counts.
    assert (∀ d, default 0 (OrderedDict.get l
                   (fold_left (λ rel_types rel,
                                 count_key rel_types (rel_type rel.2))
                      rel_data d))
                 = (default 0 (OrderedDict.get l d) +
                    length (filter (λ x, rel_type x.2 = l) rel_data))%nat)
      as Hgen.
    { induction rel_data as [|x xs IH]; intros d; simpl; [lia|].
      rewrite IH, get_count_key, filter_cons.
      destruct (decide (rel_type x.2 = l)); simpl; lia. }
    by rewrite Hgen.
Qed.

End FetcherProperties.

(* ================================================================== *)
(** ** Display names (graph_plotting.py, [_get_node_name]) *)

Section NodeNameProperties.
Context `{PyFloat}.
Import OrderedDictFacts NodeName.

Lemma append_nonempty a c b : a +:+ String c b ≠ EmptyString.
Proof. by destruct a. Qed.

(** The text of a true value is not empty. *)
Lemma py_str_true v : py_bool v = true → py_str v ≠ EmptyString.
Proof.
  destruct v as [|b|n|x|s|l]; simpl; try done.
  - by destruct b.
  - intros _. destruct (PyStrFacts.of_Z_head n) as (c & r & -> & _). done.
  - intros _. destruct (float_str_start x) as (c & r & -> & _). done.
  - by destruct s.
Qed.

Lemma first_name_true fields d v :
  first_name fields d = Some v → py_bool v = true.
Proof.
  induction fields as [|f fields IH]; simpl; [done|].
  destruct (d !! f) as [v'|]; [|done].
  destruct (py_bool v') eqn:Hv; [|done]. by intros [= <-].
Qed.

(** X15.  [_get_node_name] raises only [KeyError], exactly on an id that
    is not a node of the graph, and never returns the empty name.  A
    ["name"] attribute with a true value (a non-empty string, a non-zero
    number, a non-empty list) is the name, before every other field. *)
Theorem node_name_never_empty (graph : nx.DiGraph) (node_id : string) :
  match _get_node_name graph node_id with
  | Ok name =>
      name ≠ EmptyString ∧
      ∃ node_data, nx.node_data graph node_id = Ok node_data ∧
        ∀ v, node_data !! "name" = Some v → py_bool v = true →
             name = py_str v
  | Raise e => e = KeyError ∧ node_id ∉ nx.nodes graph
  end.
Proof.
  unfold _get_node_name, nx.node_data.
  destruct (OrderedDict.get node_id (nx.table graph)) as [e|] eqn:Hget;
    cbn [fmap option_fmap option_map of_option mbind result_bind].
  2:{ split; [done|]. by apply get_None_keys. }
  destruct (first_name _ (nx.attrs e)) as [v|] eqn:Hf.
  - split; [by eapply py_str_true, first_name_true|].
    exists (nx.attrs e). split; [done|]. intros v0 Hn Hb.
    simpl in Hf. rewrite Hn, Hb in Hf. by injection Hf as <-.
  - split; [apply append_nonempty|].
    exists (nx.attrs e). split; [done|]. intros v0 Hn Hb.
    simpl in Hf. by rewrite Hn, Hb in Hf.
Qed.

End NodeNameProperties.

(* ================================================================== *)
(** ** The main plot and its reset *)

Section MainPlotProperties.
Context `{PyFloat}.
Import GraphPlotter MainPlot.



End MainPlotProperties.

(* ================================================================== *)
(** ** The pattern plot of Project files/app.py *)

Section AppPatternPlotProperties.
Context `{PyFloat}.
Import App OrderedDictFacts AppPatternPlot.
Implicit Types g : nx.DiGraph.





End AppPatternPlotProperties.

(* ================================================================== *)
(** ** The statistics panel of app.py *)

Section StatisticsPanelProperties.
Context `{PyFloat}.
Import GraphPlotter StatisticsPanel.

(** X20.  The statistics panel cannot be made for a graph without nodes:
    [get_graph_statistics] then returns the empty dictionary, and
    formatting the panel text with it raises [KeyError].  For a graph with
    nodes the panel shows the statistics, unless counting the types
    raises [TypeError]. *)
Theorem statistics_panel_fails_on_empty_graph (p : t) :
  match _create_statistics_panel (Some p) with
  | Ok shown =>
      nx.nodes (G p) ≠ [] ∧
      ∃ st, shown = Some st ∧ get_graph_statistics p = Ok (Some st)
  | Raise e =>
      (e = KeyError ∧ nx.nodes (G p) = [] ∧ get_graph_statistics p = Ok None) ∨
      (e = TypeError ∧ nx.nodes (G p) ≠ [] ∧
       get_graph_statistics p = Raise TypeError)
  end.
Proof.
  assert (nx.number_of_nodes (G p) = 0 ↔ nx.nodes (G p) = []) as Hnil.
  { rewrite number_of_nodes_length. split; [apply nil_length_inv|by intros ->]. }
  unfold _create_statistics_panel, get_graph_statistics.
  case_bool_decide as Hn.
  - left. by rewrite <- Hnil.
  - rewrite Hnil in Hn.
    rewrite (for_each_ext _ (λ d x, count_type d (nx.attrs x.2)));
      [|by intros d [? ?]].
    pose proof (count_loop (λ x : string * nx.NodeEntry, nx.attrs x.2)
                  (nx.table (G p)) []) as Hnodes.
    destruct (for_each _ (nx.table (G p)) []) as [nt|e]; simpl.
    + rewrite (for_each_ext _ (λ d x, count_type d x.2));
        [|by intros d [[? ?] ?]].
      pose proof (count_loop
                    (λ x : string * string * gmap string PropertyValue, x.2)
                    (nx.edges_data (G p)) []) as Hedges.
      destruct (for_each _ (nx.edges_data (G p)) []) as [et|e]; simpl.
      * split; [done|]. eauto.
      * destruct Hedges as [-> _]. by right.
    + destruct Hnodes as [-> _]. by right.
Qed.

End StatisticsPanelProperties.

(* ================================================================== *)
(** ** The inclusive comparisons in the filter box of app.py *)

Section AppInclusiveComparison.
Context `{PyFloat}.

(** X16.  In the filter box of app.py a condition [>= t] or [<= t]
    matches no value at all, number or text: there is no [==] in it, so
    the numeric branch is taken, where the test for [>] (or [<]) comes
    first and reads the threshold [= t], which is no number. *)
Theorem app_inclusive_condition_matches_nothing (v : PropertyValue)
    (cond : string) (op : ascii) (rest : string) :
  op = ">"%char ∨ op = "<"%char →
  PyStr.lower (PyStr.strip cond) = String op (String "=" rest) →
  PyStr.contains "contains" rest = false →
  PyStr.contains "=" rest = false →
  PyStr.contains ">" rest = false →
  App.parse_filter_condition v cond = Ok false ∧
  ∀ info p, properties info !! p = Some v →
    PropertyControls.matches_filter (primary_label info) p cond info = Ok false.
Proof.
  intros Hop Hnorm Hword Heq Hgt.
  pose proof (parse_inclusive_condition_never_matches v cond op rest
                Hop Hnorm Hword Heq Hgt) as Hparse.
  split; [done|]. intros info p Hp. unfold PropertyControls.matches_filter.
  rewrite Hp. simpl. by destruct (_ && _).
Qed.

End AppInclusiveComparison.

(* ================================================================== *)
(** ** Examples for the properties above *)

Section PropertyExamples.
Import Examples.



(** On [gd_cast] the filter [name contains n] on persons matches ["p1"]
    alone; the edge from ["p1"] to the movie stays grey. *)
Example pattern_filter_cast :
  (λ o, match o with
        | Some view =>
            (elements (PropertyControls.matching_nodes
                         (PropertyControls.columns view)),
             PropertyControls.edge_colors view,
             PropertyControls.matching_total view)
        | None => ([], [], 0)
        end)
    <$> (res ← App.create_pattern_visualization gd_cast "Person" "ACTED_IN" "Movie";
         PropertyControls.apply_filter gd_cast (App.pattern_G res)
           (Some "Person") (Some "name") "contains n")
  = Ok (["p1"], ["#CCCCCC"], 1).
Proof. by vm_compute. Qed.

Lemma app_search_accumulates_witness :
  length (color renderer_cast)
  = length (nx.nodes (GraphPlotter.G plotter_cast)) ∧
  "ann" ≠ EmptyString ∧ "heat" ≠ EmptyString ∧
  AppSearch.search_nodes (GraphPlotter.G plotter_cast) EmptyString
    (color renderer_cast) = (color renderer_cast, None) ∧
  AppSearch.search_nodes (GraphPlotter.G plotter_cast) "heat"
    (AppSearch.search_nodes (GraphPlotter.G plotter_cast) "ann"
       (color renderer_cast)).1
  = (highlighted
       (λ x, GraphPlotter.found (PyStr.lower "ann") (nx.attrs x.2) ||
             GraphPlotter.found (PyStr.lower "heat") (nx.attrs x.2))
       (nx.table (GraphPlotter.G plotter_cast)) (color renderer_cast), None).
Proof.
  split; [reflexivity|]. split; [done|]. split; [done|].
  apply (app_search_accumulates (GraphPlotter.G plotter_cast)
           (color renderer_cast) "ann" "heat"); [reflexivity|done|done].
Defined.

(** Searching [ann] and then [heat] in the first app.py leaves both the
    person and the movie gold. *)
Example app_search_cast :
  AppSearch.search_nodes (GraphPlotter.G plotter_cast) "heat"
    (AppSearch.search_nodes (GraphPlotter.G plotter_cast) "ann"
       (color renderer_cast)).1
  = (["#FFD700"; "#31a354"; "#FFD700"], None).
Proof. by vm_compute. Qed.

Lemma app_inclusive_condition_matches_nothing_witness :
  PyStr.lower (PyStr.strip ">= 1990") = String ">" (String "=" " 1990") ∧
  App.parse_filter_condition (PInt 1990) ">= 1990" = Ok false ∧
  ∀ info p, properties info !! p = Some (PInt 1990) →
    PropertyControls.matches_filter (primary_label info) p ">= 1990" info
    = Ok false.
Proof.
  split; [reflexivity|].
  apply (app_inclusive_condition_matches_nothing (PInt 1990) ">= 1990" ">"
           " 1990"); [by left | reflexivity..].
Defined.

End PropertyExamples.

(* ================================================================== *)
(** ** The filter language on well-formed conditions *)

Section FilterLanguage.
Context `{PyFloat}.
Import PatternPropertyExplorer.

Lemma partition_none sep s :
  PyStr.contains sep s = false → PyStr.partition sep s = None.
Proof.
  induction s as [|c s IH].
  - simpl. rewrite orb_false_r. by intros ->.
  - cbn [PyStr.contains PyStr.partition].
    intros [-> Hc]%orb_false_elim. by rewrite (IH Hc).
Qed.

Lemma drop_append a b : PyStr.drop (String.length a) (a +:+ b) = b.
Proof. induction a as [|c a IH]; [done|]. by rewrite append_cons. Qed.

(** [(sep + rest).split(sep)[1]] is [rest] when [sep] does not occur in
    [rest]. *)
Lemma split_1_prefix sep rest :
  PyStr.contains sep rest = false →
  PyStr.split_1 sep (sep +:+ rest) = Ok rest.
Proof.
  intros Hc. unfold PyStr.split_1.
  assert (PyStr.partition sep (sep +:+ rest) = Some (EmptyString, rest)) as ->.
  { destruct sep as [|c sep].
    - destruct rest; simpl in Hc; done.
    - rewrite append_cons. cbn [PyStr.partition].
      rewrite <- append_cons, prefix_append, drop_append. done. }
  by rewrite partition_none.
Qed.


Lemma not_contains_prefix sub s :
  PyStr.contains sub s = false → String.prefix sub s = false.
Proof.
  intros Hc. destruct (String.prefix sub s) eqn:Hp; [|done].
  apply contains_prefix in Hp. congruence.
Qed.

Lemma not_contains_longer c sub s :
  PyStr.contains (String c EmptyString) s = false →
  PyStr.contains (String c sub) s = false.
Proof.
  intros Hc. destruct (PyStr.contains (String c sub) s) eqn:Hl; [|done].
  apply contains_longer in Hl. congruence.
Qed.

Lemma normalised_nonempty cond c r :
  PyStr.lower (PyStr.strip cond) = String c r → PyStr.is_empty cond = false.
Proof. by destruct cond. Qed.

(** the comparison that a strict condition makes *)
Definition strictly (op : ascii) (a b : pyfloat) : bool :=
  if Ascii.eqb op ">" then App.float_gtb a b else float_ltb a b.

(** [float(value) op float(threshold)], [False] when a conversion fails *)
Definition compare_numbers (op : ascii) (value : PropertyValue)
    (threshold : string) : bool :=
  match py_float value, float_of_text threshold with
  | Ok a, Ok b => strictly op a b
  | _, _ => false
  end.

(** X21.  Strict comparisons work as documented, in both filter boxes: a
    condition [> t] or [< t] keeps exactly the values whose [float] is
    greater (smaller) than [float(t)], and is false when the value or the
    threshold is no number.  For such conditions [_evaluate_filter] and
    [parse_filter_condition] agree. *)
Theorem strict_condition_compares_numbers (v : PropertyValue) (cond : string)
    (op : ascii) (rest : string) :
  op = ">"%char ∨ op = "<"%char →
  PyStr.lower (PyStr.strip cond) = String op rest →
  PyStr.contains "contains" rest = false →
  PyStr.contains "=" rest = false →
  PyStr.contains ">" rest = false →
  PyStr.contains "<" rest = false →
  _evaluate_filter v cond = Ok (compare_numbers op v (PyStr.strip rest)) ∧
  App.parse_filter_condition v cond
  = Ok (compare_numbers op v (PyStr.strip rest)).
Proof.
  intros Hop Hnorm Hword Heq Hgt Hlt.
  pose proof (not_contains_prefix _ _ Hword) as Hpw.
  pose proof (not_contains_prefix _ _ Heq) as Hpe.
  pose proof (not_contains_longer "=" "=" rest Heq) as Heq2.
  assert (PyStr.contains "contains" (String op rest) = false) as Hc1
    by (destruct Hop as [-> | ->]; cbn [PyStr.contains]; by rewrite Hword).
  assert (PyStr.contains "=" (String op rest) = false) as Hc2
    by (destruct Hop as [-> | ->]; cbn [PyStr.contains]; by rewrite Heq).
  assert (PyStr.contains "==" (String op rest) = false) as Hc3
    by (destruct Hop as [-> | ->]; cbn [PyStr.contains]; by rewrite Heq2).
  assert (PyStr.startswith "==" (String op rest) = false) as Hs2
    by (by destruct Hop as [-> | ->]).
  assert (∀ sep : ascii, sep = op →
            PyStr.split_1 (String sep EmptyString) (String op rest) = Ok rest)
    as Hsplit.
  { intros sep ->. apply (split_1_prefix (String op EmptyString) rest).
    by destruct Hop as [-> | ->]. }
  split.
  - unfold _evaluate_filter.
    rewrite (normalised_nonempty _ _ _ Hnorm), Hnorm, Hc1, Hs2, Hc2.
    cbn [orb]. unfold compare_numbers, strictly, PyStr.startswith.
    destruct Hop as [-> | ->]; cbn [String.prefix PyStr.drop Ascii.eqb];
      destruct (py_float v) as [a|]; try done;
      cbn [mbind result_bind]; rewrite ?prefix_empty; simpl;
      by destruct (float_of_text (PyStr.strip rest)).
  - unfold App.parse_filter_condition. rewrite Hnorm, Hc1, Hc3.
    unfold compare_numbers, strictly.
    destruct Hop as [-> | ->].
    + assert (PyStr.contains ">" (String ">" rest) = true) as ->
        by (cbn [PyStr.contains String.prefix]; simpl; by rewrite prefix_empty).
      rewrite (Hsplit ">"%char eq_refl).
      destruct (py_float v) as [a|]; try done. cbn [mbind result_bind].
      by destruct (float_of_text (PyStr.strip rest)).
    + assert (PyStr.contains ">" (String "<" rest) = false) as ->
        by (cbn [PyStr.contains]; by rewrite Hgt).
      assert (PyStr.contains "<" (String "<" rest) = true) as ->
        by (cbn [PyStr.contains String.prefix]; simpl; by rewrite prefix_empty).
      rewrite (Hsplit "<"%char eq_refl).
      destruct (py_float v) as [a|]; try done. cbn [mbind result_bind].
      by destruct (float_of_text (PyStr.strip rest)).
Qed.


(** X23.  A condition without operator is no text comparison.  When the
    condition, stripped and lower-cased, contains neither the word
    [contains] nor any of [=], [>] and [<], both filter boxes keep exactly
    the values that [float] accepts, whatever the condition says: the
    numbers that fit a float, and of the texts only those that read as a
    number. *)
Theorem bare_condition_keeps_numbers (v : PropertyValue) (cond : string) :
  PyStr.is_empty cond = false →
  PyStr.contains "contains" (PyStr.lower (PyStr.strip cond)) = false →
  PyStr.contains "=" (PyStr.lower (PyStr.strip cond)) = false →
  PyStr.contains ">" (PyStr.lower (PyStr.strip cond)) = false →
  PyStr.contains "<" (PyStr.lower (PyStr.strip cond)) = false →
  _evaluate_filter v cond
  = Ok (match py_float v with Ok _ => true | Raise _ => false end) ∧
  App.parse_filter_condition v cond
  = Ok (match py_float v with Ok _ => true | Raise _ => false end).
Proof.
  intros Hne Hword Heq Hgt Hlt.
  pose proof (not_contains_prefix _ _ Hgt) as Hpg.
  pose proof (not_contains_prefix _ _ Hlt) as Hpl.
  pose proof (not_contains_prefix _ _ (not_contains_longer "=" "=" _ Heq)) as Hp2.
  split.
  - unfold _evaluate_filter, PyStr.startswith.
    rewrite Hne, Hword, Hp2, Heq, Hpg, Hpl. simpl. by destruct (py_float v).
  - unfold App.parse_filter_condition.
    rewrite Hword, (not_contains_longer "=" "=" _ Heq), Hgt, Hlt.
    rewrite (not_contains_longer ">" "=" _ Hgt), (not_contains_longer "<" "=" _ Hlt).
    simpl. by destruct (py_float v).
Qed.




End FilterLanguage.

Section FilterLanguageExamples.
Import Examples PatternPropertyExplorer.

Lemma strict_condition_compares_numbers_witness :
  PyStr.lower (PyStr.strip "> 1990") = String ">" " 1990" ∧
  _evaluate_filter (PInt 1995) "> 1990"
  = Ok (compare_numbers ">" (PInt 1995) (PyStr.strip " 1990")) ∧
  App.parse_filter_condition (PInt 1995) "> 1990"
  = Ok (compare_numbers ">" (PInt 1995) (PyStr.strip " 1990")).
Proof.
  split; [reflexivity|].
  apply (strict_condition_compares_numbers (PInt 1995) "> 1990" ">" " 1990");
    [by left | reflexivity..].
Defined.


Lemma bare_condition_keeps_numbers_witness :
  PyStr.lower (PyStr.strip "Drama") = "drama" ∧
  _evaluate_filter (PStr "Drama") "Drama"
  = Ok (match py_float (PStr "Drama") with Ok _ => true | Raise _ => false end) ∧
  App.parse_filter_condition (PStr "Drama") "Drama"
  = Ok (match py_float (PStr "Drama") with Ok _ => true | Raise _ => false end).
Proof.
  split; [reflexivity|].
  apply (bare_condition_keeps_numbers (PStr "Drama") "Drama"); reflexivity.
Defined.


(** The text [Action Movie] contains [action], the number 1995 does not
    contain [1995], and the text [Drama] equals ['Drama']. *)
Example filter_language_cases :
  _evaluate_filter (PStr "Action Movie") "contains 'Action'" = Ok true ∧
  _evaluate_filter (PInt 1995) "contains 1995" = Ok false ∧
  _evaluate_filter (PStr "Drama") "== 'Drama'" = Ok true.
Proof. split_and!; by vm_compute. Qed.

(** The bare condition [Drama] rejects the text [Drama]: [float] rejects
    a text that starts with the letter D. *)
Example bare_word_rejects_text :
  _evaluate_filter (PStr "Drama") "Drama" = Ok false ∧
  App.parse_filter_condition (PStr "Drama") "Drama" = Ok false.
Proof.
  assert (float_of_str "Drama" = None) as Hf.
  { destruct (float_of_str "Drama") as [x|] eqn:Hx; [|done].
    apply float_of_str_start in Hx as (c & r & Hl & Hc).
    simpl in Hl. injection Hl as <- _. done. }
  unfold _evaluate_filter, App.parse_filter_condition.
  cbn -[float_of_str]. by rewrite Hf.
Qed.

End FilterLanguageExamples.
